(** * AntibioDeal: the dosing and dilution computation of the two calculators

    [src/dilutioner.py] (concentration-limit driven, called Policy A below)
    and [src/main.py] (fixed-ratio dilution driven, Policy B) are embedded
    as executable functions, and the statements of the specification are
    settled against them.

    Conventions of the embedding.
    - A Python [str] is a [string]; a character is its code point, so the
      model covers the code points below 256.
    - A Python [int] is a [Z].  The arithmetic on [float] is embedded
      twice.  In [PyNum], [PolicyA] and [PolicyB] a [float] is an exact
      rational ([Q]): the statements settled there are about what is
      parsed, which branch structure is followed and which exceptions
      escape, at inputs where no rounding takes part.  In [PyFloat],
      [PolicyA64] and [PolicyB64] a [float] is an IEEE 754 binary64 number
      and every operation rounds as the interpreter does: the statements
      that depend on a comparison or a rounding of computed values are
      settled there.
    - Division by a zero divisor raises [ZeroDivisionError] as in Python.
    - An exception is a value of [exn]; code that may raise lives in the
      error monad [res].  [st.error] followed by the end of the run (or by
      [st.stop()]) is the outcome [Reported]; an exception that no [except]
      clause catches is the outcome [Uncaught]. *)

From Stdlib Require Import ZArith QArith Qround Qabs String Ascii List Bool Lia.
From Stdlib Require Import DecimalString Lqa.
From Stdlib Require SpecFloat.
From stdpp Require Import gmap strings.

Local Open Scope Z_scope.
Local Open Scope string_scope.

(** ** Exceptions and outcomes *)

Inductive exn :=
| IndexError | ValueError | ZeroDivisionError | TypeError
| OverflowError | StopIteration | KeyError | NameError.

Inductive res (A : Type) :=
| Ok (a : A)
| Raise (e : exn).
Arguments Ok {A} a.
Arguments Raise {A} e.

Definition bind {A B} (m : res A) (f : A -> res B) : res B :=
  match m with
  | Ok a => f a
  | Raise e => Raise e
  end.

Notation "'let*' x ':=' m 'in' k" := (bind m (fun x => k))
  (at level 10, x pattern, m at level 100, k at level 200).

(** The messages the two scripts pass to [st.error]. *)
Inductive message :=
| MoleculeNotFound
| DoseNotPositive
| StabilityFormat
| DilutionNotRecognised
| DilutionFormat.

Inductive outcome (P : Type) :=
| Success (p : P)
| Reported (m : message)
| Uncaught (e : exn).
Arguments Success {P} p.
Arguments Reported {P} m.
Arguments Uncaught {P} e.

Definition obind {A B} (m : outcome A) (f : A -> outcome B) : outcome B :=
  match m with
  | Success a => f a
  | Reported msg => Reported msg
  | Uncaught e => Uncaught e
  end.

Notation "'let+' x ':=' m 'in' k" := (obind m (fun x => k))
  (at level 10, x pattern, m at level 100, k at level 200).

(** [try: m except ...: st.error(msg); st.stop()].  The handler [h] tells
    which exceptions the [except] clauses name and the message shown for
    each; the others go through. *)
Definition catch {A} (m : res A) (h : exn -> option message) : outcome A :=
  match m with
  | Ok a => Success a
  | Raise e =>
      match h e with
      | Some msg => Reported msg
      | None => Uncaught e
      end
  end.

(** Code outside every [try]. *)
Definition bare {A} (m : res A) : outcome A := catch m (fun _ => None).

(** ** Python strings *)

Module PyStr.

Definition code (c : ascii) : N := N_of_ascii c.

(** [\d] and [str.isdigit] on the modelled code points. *)
Definition is_digit (c : ascii) : bool :=
  ((48 <=? code c) && (code c <=? 57))%N.

(** [\s] and [str.isspace]: TAB..CR, FS..US, space, NEL and NBSP. *)
Definition is_space (c : ascii) : bool :=
  (((9 <=? code c) && (code c <=? 13)) || ((28 <=? code c) && (code c <=? 32))
   || (code c =? 133) || (code c =? 160))%N.

Definition is_char (a : ascii) (c : ascii) : bool := Ascii.eqb a c.

Fixpoint lstrip (s : string) : string :=
  match s with
  | String c s' => if is_space c then lstrip s' else s
  | EmptyString => EmptyString
  end.

(** Drops the trailing white space: a character is kept as soon as
    something is kept after it. *)
Fixpoint rstrip (s : string) : string :=
  match s with
  | String c s' =>
      match rstrip s' with
      | EmptyString => if is_space c then EmptyString else String c EmptyString
      | t => String c t
      end
  | EmptyString => EmptyString
  end.

Definition strip (s : string) : string := rstrip (lstrip s).

(** [str.upper] on one character: the ASCII letters.  The other modelled
    code points are left as they are; Python maps none of them to ["N"] or
    ["A"], which is all the callers compare against. *)
Definition upper_char (c : ascii) : ascii :=
  if ((97 <=? code c) && (code c <=? 122))%N
  then ascii_of_N (code c - 32) else c.

Fixpoint upper (s : string) : string :=
  match s with
  | String c s' => String (upper_char c) (upper s')
  | EmptyString => EmptyString
  end.

(** [c in s] for a one-character [c]. *)
Fixpoint contains (c : ascii) (s : string) : bool :=
  match s with
  | String d s' => if Ascii.eqb c d then true else contains c s'
  | EmptyString => false
  end.

(** [s.split(c)] for a one-character separator. *)
Fixpoint split (c : ascii) (s : string) : list string :=
  match s with
  | String d s' =>
      if Ascii.eqb c d then EmptyString :: split c s'
      else match split c s' with
           | p :: ps => String d p :: ps
           | nil => String d EmptyString :: nil
           end
  | EmptyString => EmptyString :: nil
  end.

(** [s.replace(a, b)] for one-character [a] and [b]. *)
Fixpoint replace (a b : ascii) (s : string) : string :=
  match s with
  | String d s' => String (if Ascii.eqb a d then b else d) (replace a b s')
  | EmptyString => EmptyString
  end.

(** [l[i]] on a list, raising [IndexError] out of range. *)
Definition index {A} (l : list A) (i : nat) : res A :=
  match nth_error l i with
  | Some x => Ok x
  | None => Raise IndexError
  end.

End PyStr.

(** ** The fragment of [re] the two scripts use

    Greedy quantifiers over one character class, an optional non-capturing
    group, sequencing and numbered capturing groups, matched by
    backtracking as [re] does: the continuation [k] is the rest of the
    pattern, and a quantifier gives back characters when [k] fails. *)

Module Re.

Inductive re :=
| Chr (p : ascii -> bool)
| Star (p : ascii -> bool)
| Plus (p : ascii -> bool)
| Opt (r : re)
| Seq (r1 r2 : re)
| Group (i : nat) (r : re)
| Eps.

Definition caps := list (nat * string).
Definition found := (caps * string)%type.

Fixpoint star (p : ascii -> bool) (k : string -> option found) (s : string)
  : option found :=
  match s with
  | String c s' =>
      if p c then
        match star p k s' with
        | Some m => Some m
        | None => k s
        end
      else k s
  | EmptyString => k s
  end.

(** The part of [s] consumed when [rest] is what is left of it. *)
Definition consumed (s rest : string) : string :=
  substring 0 (String.length s - String.length rest) s.

Fixpoint exec (r : re) (s : string) (cs : caps)
  (k : string -> caps -> option found) {struct r} : option found :=
  match r with
  | Chr p =>
      match s with
      | String c s' => if p c then k s' cs else None
      | EmptyString => None
      end
  | Star p => star p (fun s' => k s' cs) s
  | Plus p =>
      match s with
      | String c s' => if p c then star p (fun s' => k s' cs) s' else None
      | EmptyString => None
      end
  | Opt r1 =>
      match exec r1 s cs k with
      | Some m => Some m
      | None => k s cs
      end
  | Seq r1 r2 => exec r1 s cs (fun s' cs' => exec r2 s' cs' k)
  | Group i r1 =>
      exec r1 s cs (fun s' cs' => k s' ((i, consumed s s') :: cs'))
  | Eps => k s cs
  end.

(** [re.match]: the pattern anchored at the start of [s]; the result is
    the groups and what follows the match. *)
Definition match_at (r : re) (s : string) : option found :=
  exec r s nil (fun s' cs => Some (cs, s')).

(** [re.search]: the leftmost position where the pattern matches. *)
Fixpoint search (r : re) (s : string) : option found :=
  match match_at r s with
  | Some m => Some m
  | None =>
      match s with
      | String _ s' => search r s'
      | EmptyString => None
      end
  end.

(** [m.group(i)].  Every group of the patterns below takes part in every
    match, so the default is never returned. *)
Fixpoint group (cs : caps) (i : nat) : string :=
  match cs with
  | (j, g) :: cs' => if Nat.eqb i j then g else group cs' i
  | nil => EmptyString
  end.

(** [re.findall] for a pattern with one group: the group of every match,
    scanning on from the end of the previous match.  The patterns below
    match no empty string, so every match shortens what is left, and the
    length of the string is fuel enough. *)
Fixpoint findall_fuel (fuel : nat) (r : re) (s : string) : list string :=
  match fuel with
  | O => nil
  | S fuel' =>
      match search r s with
      | Some (cs, rest) => group cs 1 :: findall_fuel fuel' r rest
      | None => nil
      end
  end.

Definition findall (r : re) (s : string) : list string :=
  findall_fuel (S (String.length s)) r s.

(** A pattern given as the list of its pieces, in order. *)
Fixpoint cat (rs : list re) : re :=
  match rs with
  | r :: rs' => Seq r (cat rs')
  | nil => Eps
  end.

(** The characters of [s], literally. *)
Fixpoint lit (s : string) : re :=
  match s with
  | String c s' => Seq (Chr (PyStr.is_char c)) (lit s')
  | EmptyString => Eps
  end.

Definition digits : re := Plus PyStr.is_digit.
Definition ws : re := Star PyStr.is_space.

End Re.

(** ** Python numbers *)

Module PyNum.

Local Open Scope Q_scope.

(** The value of a string of decimal digits, most significant first. *)
Fixpoint digits_value (acc : Z) (s : string) : option Z :=
  match s with
  | String c s' =>
      if PyStr.is_digit c
      then digits_value (10 * acc + (Z.of_N (PyStr.code c) - 48)) s'
      else None
  | EmptyString => Some acc
  end.

(** [float(s)] on the strings the scripts pass to it, which are groups of
    the patterns below: decimal digits with at most one point, and at
    least one digit.  Anything else raises [ValueError]. *)
Definition float (s : string) : res Q :=
  let parts :=
    match PyStr.split "." s with
    | ip :: nil => Some (ip, EmptyString)
    | ip :: fp :: nil => Some (ip, fp)
    | _ => None
    end in
  match parts with
  | Some (ip, fp) =>
      match digits_value 0 (String.append ip fp) with
      | Some n =>
          if Nat.eqb (String.length (String.append ip fp)) 0
          then Raise ValueError
          else Ok (n # Z.to_pos (10 ^ Z.of_nat (String.length fp)))
      | None => Raise ValueError
      end
  | None => Raise ValueError
  end.

(** [x / y] on floats, and on ints (true division). *)
Definition div (x y : Q) : res Q :=
  if Qeq_bool y 0 then Raise ZeroDivisionError else Ok (x / y).

(** [a % b] on ints. *)
Definition mod_ (a b : Z) : res Z :=
  if (b =? 0)%Z then Raise ZeroDivisionError else Ok (a mod b)%Z.

(** [int(x)]: truncation toward zero. *)
Definition int (x : Q) : Z := Z.quot (Qnum x) (Zpos (Qden x)).

(** [math.ceil(x)]. *)
Definition ceil (x : Q) : Z := Qceiling x.

(** [round(x)]: the nearest integer, a tie going to the even one. *)
Definition round (x : Q) : Z :=
  let f := Qfloor x in
  let r := x - inject_Z f in
  if Qle_bool r (1 # 2)
  then if Qeq_bool r (1 # 2) then (if Z.even f then f else f + 1)%Z else f
  else (f + 1)%Z.

(** [min(l)] on a non-empty list of ints, given as head and tail. *)
Definition min_list (x : Z) (l : list Z) : Z := fold_left Z.min l x.

(** [range(lo, hi)]. *)
Definition range (lo hi : Z) : list Z :=
  map (fun i => (lo + Z.of_nat i)%Z) (seq 0 (Z.to_nat (hi - lo))).

End PyNum.

(** ** Cells of the spreadsheets, as pandas hands them over *)

Inductive cell :=
| NaN
| Text (s : string)
| Int (n : Z).

(** [pd.isna] on a scalar. *)
Definition isna (c : cell) : bool :=
  match c with
  | NaN => true
  | _ => false
  end.

(** [str(c)]. *)
Definition str (c : cell) : string :=
  match c with
  | NaN => "nan"
  | Text s => s
  | Int n => NilEmpty.string_of_int (Z.to_int n)
  end.

(** ** Policy A: [src/dilutioner.py] *)

Module PolicyA.

Import PyStr PyNum Re.
Local Open Scope Q_scope.

(** One line of [antibiotics_stability.xlsx]. *)
Record row := {
  Molecule : string;
  Solvent : cell;
  Concentration : cell;
  Stability : cell;
  Comment : cell;
  Reference : cell
}.

Record variant := {
  solvent : cell;
  concentration : cell;
  stability : cell;
  comment : cell;
  reference : cell
}.

Definition variant_of_row (r : row) : variant :=
  {| solvent := Solvent r; concentration := Concentration r;
     stability := Stability r; comment := Comment r;
     reference := Reference r |}.

(** The condition of the comprehension in [load_data]. *)
Definition keep (r : row) : bool :=
  negb (isna (Concentration r))
  && negb (String.eqb (strip (str (Concentration r))) "").

(** The rows of one group of [df.groupby('Molecule')], in file order. *)
Definition group_rows (molecule : string) (df : list row) : list row :=
  List.filter (fun r => String.eqb (Molecule r) molecule) df.

(** [load_data]: every molecule of the file is a key; its variants are
    the rows of its group that pass [keep]. *)
Definition load_data (df : list row) : gmap string (list variant) :=
  fold_left
    (fun antibiotics r =>
       <[Molecule r := map variant_of_row (List.filter keep (group_rows (Molecule r) df))]>
         antibiotics)
    df ∅.

(** [r"(\d+)\s*h"] *)
Definition pattern_stability : re :=
  cat (Group 1 digits :: ws :: lit "h" :: nil).

(** [r"(\d+(?:\.\d+)?)\s*mg/mL"] *)
Definition pattern_concentration : re :=
  cat (Group 1 (Seq digits (Opt (Seq (Chr (is_char ".")) digits)))
       :: ws :: lit "mg/mL" :: nil).

Definition parse_stability (data : variant) : res Q :=
  let* g := index (findall pattern_stability (str (stability data))) 0 in
  float g.

Definition parse_concentration (data : variant) : res Q :=
  let concentration_str := str (concentration data) in
  if contains "-" concentration_str then
    let* part := index (split "-" concentration_str) 1 in
    let* g := index (findall pattern_concentration part) 0 in
    float g
  else
    let* g := index (findall pattern_concentration concentration_str) 0 in
    float g.

Inductive material_kind := PSE | pompe.

(** What the run leaves in its variables when it reaches [st.success]. *)
Record plan := {
  min_infusions : Z;
  max_val : Q;
  nb_infusion : Z;
  volume_dilution : Z;
  material : material_kind;
  hours_between : Q;
  dosage_infusion : Q;
  concentration_shown : Q
}.

(** The body of the [for n in range(...)] loop, [possible_infusions]
    being threaded through. *)
Fixpoint split_loop (stability_hours max_val dose_24h : Q)
  (ns : list Z) (possible_infusions : list Z) : res (list Z) :=
  match ns with
  | nil => Ok possible_infusions
  | n :: ns' =>
      let* m := mod_ 24 n in
      if (m =? 0)%Z then
        let* hours_between := div 24 (inject_Z n) in
        if Qle_bool hours_between stability_hours then
          let* new_dose_per_infusion := div dose_24h (inject_Z n) in
          let new_concentration := new_dose_per_infusion * 1000 / 50 in
          if Qle_bool new_concentration max_val
          then split_loop stability_hours max_val dose_24h ns'
                 (possible_infusions ++ n :: nil)
          else split_loop stability_hours max_val dose_24h ns'
                 possible_infusions
        else split_loop stability_hours max_val dose_24h ns' possible_infusions
      else split_loop stability_hours max_val dose_24h ns' possible_infusions
  end.

(** The choice of the number of infusions, the volume and the material,
    lines 96 to 137. *)
Definition choose (stability_hours max_val dose_24h : Q)
  : res (Z * Z * Z * material_kind) :=
  let* q := div 24 stability_hours in
  let min_infusions := int q in
  let* dose_per_min_infusion := div dose_24h (inject_Z min_infusions) in
  let concentration_needed := dose_per_min_infusion * 1000 / 50 in
  if Qle_bool concentration_needed max_val then
    Ok (min_infusions, min_infusions, 50%Z, PSE)
  else
    let* possible_infusions :=
      split_loop stability_hours max_val dose_24h
        (range (min_infusions + 1) (min_infusions * 2 + 1)) nil in
    match possible_infusions with
    | n :: ns => Ok (min_infusions, min_list n ns, 50%Z, PSE)
    | nil =>
        let nb_infusion := min_infusions in
        let* dose_per_infusion := div dose_24h (inject_Z nb_infusion) in
        let* v := div (dose_per_infusion * 1000) max_val in
        let volume_dilution := ceil v in
        let* w := div (inject_Z volume_dilution) 10 in
        Ok (min_infusions, nb_infusion, (ceil w * 10)%Z, pompe)
    end.

(** The [try] block, lines 83 to 165. *)
Definition solve (data : variant) (dose_24h : Q) : res plan :=
  let* stability_hours := parse_stability data in
  let* max_val := parse_concentration data in
  let* chosen := choose stability_hours max_val dose_24h in
  let '(min_infusions, nb_infusion, volume_dilution, material) := chosen in
  let* hours_between := div 24 (inject_Z nb_infusion) in
  let* dosage_infusion := div dose_24h (inject_Z nb_infusion) in
  let* concentration_shown :=
    div (dosage_infusion * 1000) (inject_Z volume_dilution) in
  Ok {| min_infusions := min_infusions; max_val := max_val;
        nb_infusion := nb_infusion; volume_dilution := volume_dilution;
        material := material; hours_between := hours_between;
        dosage_infusion := dosage_infusion;
        concentration_shown := concentration_shown |}.

(** [except (IndexError, ValueError)], line 166. *)
Definition handler (e : exn) : option message :=
  match e with
  | IndexError | ValueError => Some StabilityFormat
  | _ => None
  end.

(** The handler of the Calculate button: [data] is the variant the
    selection boxes have picked. *)
Definition calculate (antibiotics : gmap string (list variant))
  (molecule : string) (data : variant) (dose_24h : Q) : outcome plan :=
  match antibiotics !! molecule with
  | None => Reported MoleculeNotFound
  | Some _ =>
      if Qle_bool dose_24h 0 then Reported DoseNotPositive
      else catch (solve data dose_24h) handler
  end.

End PolicyA.

(** ** Policy B: [src/main.py] *)

Module PolicyB.

Import PyStr PyNum Re.
Local Open Scope Q_scope.

(** One line of [antibiotics.xlsx]. *)
Record row := {
  Molecule : string;
  Stabilite : cell;
  Dilution_pratique : cell;
  Solute_de_dilution : cell;
  Duree_administration : cell
}.

Record entry := {
  stabilite : string;
  dilution_pratique : cell;
  solute_de_dilution : cell;
  duree_administration : string
}.

(** The test before [continue], lines 21 and 22: [pd.isna] is applied to
    the string [str] has already made of the cell. *)
Definition skip (r : row) : bool :=
  let dilution_str := str (Dilution_pratique r) in
  isna (Text dilution_str) || String.eqb (strip dilution_str) "".

Definition entry_of_row (r : row) : entry :=
  {| stabilite := String.append (str (Stabilite r)) "h";
     dilution_pratique := Dilution_pratique r;
     solute_de_dilution := Solute_de_dilution r;
     duree_administration := str (Duree_administration r) |}.

Definition load_data (df : list row) : gmap string entry :=
  fold_left
    (fun antibiotiques r =>
       if skip r then antibiotiques
       else <[Molecule r := entry_of_row r]> antibiotiques)
    df ∅.

(** [r"(\d+)"] *)
Definition pattern_stabilite : re := Group 1 digits.

(** [\d+(?:[.,]\d+)?] *)
Definition number : re :=
  Seq digits
    (Opt (Seq (Chr (fun c => is_char "." c || is_char "," c)) digits)).

(** The letter a with a grave accent, U+00E0. *)
Definition a_grave : ascii := ascii_of_N 224.

(** [X à Y g dans Z ml] *)
Definition pattern1 : re :=
  cat (Group 1 number :: ws :: Chr (is_char a_grave) :: ws
       :: Group 2 number :: ws :: lit "g" :: ws :: lit "dans" :: ws
       :: Group 3 number :: ws :: lit "ml" :: nil).

(** [X g dans Y ml] *)
Definition pattern2 : re :=
  cat (Group 1 number :: ws :: lit "g" :: ws :: lit "dans" :: ws
       :: Group 2 number :: ws :: lit "ml" :: nil).

Inductive materiel_kind := IVL | PSE | pompe.

(** What the run leaves in its variables when it reaches [st.success]. *)
Record plan := {
  stability_hours : Q;
  nb_infusion : Z;
  dosage_infusion : Q;
  max_val : Q;
  vol_ref : Q;
  volume_dilution : Q;
  volume_dilution_arrondi : Z;
  materiel : materiel_kind
}.

(** [re.search] wants a string. *)
Definition as_str (c : cell) : res string :=
  match c with
  | Text s => Ok s
  | _ => Raise TypeError
  end.

(** [except IndexError], line 67. *)
Definition handler_stabilite (e : exn) : option message :=
  match e with
  | IndexError => Some StabilityFormat
  | _ => None
  end.

(** [except ValueError], line 107. *)
Definition handler_dilution (e : exn) : option message :=
  match e with
  | ValueError => Some DilutionFormat
  | _ => None
  end.

(** The two values read off the dilution string, lines 89 to 101. *)
Definition parse_dilution (dilution_str : string) : outcome (Q * Q) :=
  let match1 := search pattern1 dilution_str in
  let match2 := search pattern2 dilution_str in
  match match1 with
  | Some (m1, _) =>
      catch
        (let* max_val := float (replace "," "." (group m1 2)) in
         let* vol_ref := float (replace "," "." (group m1 3)) in
         Ok (max_val, vol_ref))
        handler_dilution
  | None =>
      match match2 with
      | Some (m2, _) =>
          catch
            (let* max_val := float (replace "," "." (group m2 1)) in
             let* vol_ref := float (replace "," "." (group m2 2)) in
             Ok (max_val, vol_ref))
            handler_dilution
      | None => Reported DilutionNotRecognised
      end
  end.

(** Line 115 to 118. *)
Definition choose_materiel (duree_administration : string)
  (volume_dilution_arrondi : Z) : materiel_kind :=
  if String.eqb (upper (strip duree_administration)) "NA" then IVL
  else if (volume_dilution_arrondi <=? 50)%Z then PSE else pompe.

(** The [else] branch of the handler, lines 62 to 130. *)
Definition solve (data : entry) (dose_24h : Q) : outcome plan :=
  let+ stability_hours :=
    catch (let* g := index (findall pattern_stabilite (stabilite data)) 0 in
           float g)
      handler_stabilite in
  let+ q := bare (div 24 stability_hours) in
  let nb_infusion := int q in
  let+ dosage_infusion := bare (div dose_24h (inject_Z nb_infusion)) in
  let+ dilution_str := bare (as_str (dilution_pratique data)) in
  let+ vals := parse_dilution dilution_str in
  let max_val := fst vals in
  let vol_ref := snd vals in
  let+ volume_dilution :=
    catch (div (dosage_infusion * vol_ref) max_val) handler_dilution in
  let volume_dilution_arrondi := (round (volume_dilution / 10) * 10)%Z in
  let materiel :=
    choose_materiel (duree_administration data) volume_dilution_arrondi in
  Success {| stability_hours := stability_hours; nb_infusion := nb_infusion;
             dosage_infusion := dosage_infusion; max_val := max_val;
             vol_ref := vol_ref; volume_dilution := volume_dilution;
             volume_dilution_arrondi := volume_dilution_arrondi;
             materiel := materiel |}.

(** The handler of the Calculer button. *)
Definition calculer (antibiotiques : gmap string entry)
  (molecule : string) (dose_24h : Q) : outcome plan :=
  match antibiotiques !! molecule with
  | None => Reported MoleculeNotFound
  | Some data =>
      if Qle_bool dose_24h 0 then Reported DoseNotPositive
      else solve data dose_24h
  end.

End PolicyB.

(** ** The statements of the specification, as definitions *)

Import PyStr PyNum Re.

(** Every character of [s] is in the class [p]. *)
Fixpoint all (p : ascii -> bool) (s : string) : bool :=
  match s with
  | String c s' => p c && all p s'
  | EmptyString => true
  end.

(** The words a pattern denotes, with the groups a match of the word
    records (last closed first): the declarative reading of a pattern,
    against which the backtracking matcher [Re.exec] is checked. *)
Fixpoint sem (r : re) (w : string) (gs : caps) : Prop :=
  match r with
  | Chr p => (exists c, w = String c EmptyString /\ p c = true) /\ gs = nil
  | Star p => all p w = true /\ gs = nil
  | Plus p => (all p w = true /\ w <> EmptyString) /\ gs = nil
  | Opt r1 => (w = EmptyString /\ gs = nil) \/ sem r1 w gs
  | Seq r1 r2 =>
      exists a b g1 g2,
        w = a +:+ b /\ gs = (g2 ++ g1)%list /\ sem r1 a g1 /\ sem r2 b g2
  | Group i r1 => exists g1, sem r1 w g1 /\ gs = (i, w) :: g1
  | Eps => w = EmptyString /\ gs = nil
  end.

(** The concentration, in mg/mL, of [dose_24h] grams split into [n]
    infusions of 50 mL each. *)
Definition conc50 (dose_24h : Q) (n : Z) : Q :=
  (dose_24h / inject_Z n * 1000 / 50)%Q.

(** The three conditions of the search of Policy A on a number [n] of
    infusions. *)
Definition constraint (stability_hours max_val dose_24h : Q) (n : Z) : bool :=
  (24 mod n =? 0)%Z && Qle_bool (24 / inject_Z n) stability_hours
  && Qle_bool (conc50 dose_24h n) max_val.

(** The ascending search of the specification: [count] numbers from [n]
    on, the first one that passes [f] wins. *)
Fixpoint first_from (f : Z -> bool) (n : Z) (count : nat) : option Z :=
  match count with
  | O => None
  | S count' => if f n then Some n else first_from f (n + 1) count'
  end.

(** Step 6 of Policy A: from [min_infusions + 1] to [2 * min_infusions]. *)
Definition first_match (stability_hours max_val dose_24h : Q)
  (min_infusions : Z) : option Z :=
  first_from (constraint stability_hours max_val dose_24h)
    (min_infusions + 1) (Z.to_nat min_infusions).

(** The volume of the fallback of Policy A, lines 133 to 136. *)
Definition fallback_volume (max_val dose_24h : Q) (min_infusions : Z) : Z :=
  (ceil (inject_Z (ceil (dose_24h / inject_Z min_infusions * 1000 / max_val))
         / 10) * 10)%Z.

(** The administration duration, trimmed and without regard to case, is
    the word NA: some white space, an N, an A, some white space. *)
Definition is_NA (duree : string) : Prop :=
  exists l n a r,
    duree = l +:+ String n (String a r)
    /\ all is_space l = true /\ all is_space r = true
    /\ (n = "N"%char \/ n = "n"%char) /\ (a = "A"%char \/ a = "a"%char).

(** ** Inputs used in the examples *)

Definition sample_variant (stability concentration : string) : PolicyA.variant :=
  {| PolicyA.solvent := Text "NaCl 0.9%";
     PolicyA.concentration := Text concentration;
     PolicyA.stability := Text stability;
     PolicyA.comment := NaN;
     PolicyA.reference := NaN |}.

Definition sample_row (stability concentration : cell) : PolicyA.row :=
  {| PolicyA.Molecule := "Cefazoline";
     PolicyA.Solvent := Text "NaCl 0.9%";
     PolicyA.Concentration := concentration;
     PolicyA.Stability := stability;
     PolicyA.Comment := NaN;
     PolicyA.Reference := NaN |}.

Definition sample_entry (stabilite : string) (dilution : cell) (duree : string)
  : PolicyB.entry :=
  {| PolicyB.stabilite := stabilite;
     PolicyB.dilution_pratique := dilution;
     PolicyB.solute_de_dilution := Text "G5%";
     PolicyB.duree_administration := duree |}.

Definition sample_ligne (stabilite dilution duree : cell) : PolicyB.row :=
  {| PolicyB.Molecule := "Cefazoline";
     PolicyB.Stabilite := stabilite;
     PolicyB.Dilution_pratique := dilution;
     PolicyB.Solute_de_dilution := Text "G5%";
     PolicyB.Duree_administration := duree |}.

(** ["1 à 2 g dans 100 ml"] *)
Definition one_to_two_g_in_100_ml : string :=
  "1 " +:+ String PolicyB.a_grave " 2 g dans 100 ml".


(** A word of the pattern [r] occurs somewhere in [s]. *)
Definition occurs (r : re) (s : string) : Prop :=
  exists pre w post gs, s = pre +:+ w +:+ post /\ sem r w gs.

(** Ten to the [n]. *)
Fixpoint pow10 (n : nat) : positive :=
  match n with
  | O => 1
  | S n' => 10 * pow10 n'
  end.

(** A decimal number written with a point or a comma: the digits read so
    far make [num] over [den]; a digit after the separator adds a decimal
    place. *)
Fixpoint read_digits (s : string) (num : Z) (den : positive) (after : bool)
  : option Q :=
  match s with
  | String c s' =>
      if is_digit c then
        read_digits s' (10 * num + (Z.of_N (code c) - 48))
          (if after then 10 * den else den)%positive after
      else if negb after && (Ascii.eqb c "." || Ascii.eqb c ",")
      then read_digits s' num den true
      else None
  | EmptyString => Some (num # den)
  end.

Definition read_decimal (s : string) : option Q := read_digits s 0 1 false.


(** ** The rest of the two scripts *)

(** [a == b] on two cells: a missing value equals nothing, itself
    included, and a text never equals a number. *)
Definition cell_eq (a b : cell) : bool :=
  match a, b with
  | Text s, Text t => String.eqb s t
  | Int m, Int n => (m =? n)%Z
  | _, _ => false
  end.

(** How the choice of the variant ends, [src/dilutioner.py] lines 58 to
    71: on a variant, on the [IndexError] of [variants[0]], or on the
    [StopIteration] of [next]. *)
Inductive picked :=
| Picked (data : PolicyA.variant)
| NoVariant
| NoMatch.

(** [next(var for var in variants if var["solvent"] == selected_solvent)] *)
Fixpoint next_with_solvent (variants : list PolicyA.variant)
  (selected_solvent : cell) : option PolicyA.variant :=
  match variants with
  | var :: variants' =>
      if cell_eq (PolicyA.solvent var) selected_solvent then Some var
      else next_with_solvent variants' selected_solvent
  | nil => None
  end.

(** The variant the run works on; [selected_solvent] is what the second
    selection box returns, and is looked at only when there are several
    variants. *)
Definition select_data (variants : list PolicyA.variant)
  (selected_solvent : cell) : picked :=
  if (1 <? length variants)%nat then
    match next_with_solvent variants selected_solvent with
    | Some data => Picked data
    | None => NoMatch
    end
  else
    match variants with
    | data :: _ => Picked data
    | nil => NoVariant
    end.

(** [solvent_options]: what the second selection box offers. *)
Definition solvent_options (variants : list PolicyA.variant) : list cell :=
  map PolicyA.solvent variants.

(** [number_text.get(nb_infusion, str(nb_infusion) + ' times')],
    [src/dilutioner.py] lines 143 to 145. *)
Definition number_text (nb_infusion : Z) : string :=
  if (nb_infusion =? 1)%Z then "once"
  else if (nb_infusion =? 2)%Z then "twice"
  else if (nb_infusion =? 3)%Z then "three times"
  else if (nb_infusion =? 4)%Z then "four times"
  else if (nb_infusion =? 6)%Z then "six times"
  else str (Int nb_infusion) +:+ " times".

Definition freq_text (p : PolicyA.plan) : string :=
  "1 infusion every " +:+ str (Int (int (PolicyA.hours_between p)))
  +:+ "h, " +:+ number_text (PolicyA.nb_infusion p) +:+ " per day".

(** [nombre_text.get(nb_infusion, str(nb_infusion) + ' fois')],
    [src/main.py] lines 75 to 77. *)
Definition nombre_text (nb_infusion : Z) : string :=
  if (nb_infusion =? 1)%Z then "une fois"
  else if (nb_infusion =? 2)%Z then "deux fois"
  else if (nb_infusion =? 3)%Z then "trois fois"
  else if (nb_infusion =? 4)%Z then "quatre fois"
  else if (nb_infusion =? 6)%Z then "six fois"
  else str (Int nb_infusion) +:+ " fois".

Definition freq_text_B (p : PolicyB.plan) : string :=
  "1 perfusion toutes les " +:+ str (Int (int (PolicyB.stability_hours p)))
  +:+ "h, " +:+ nombre_text (PolicyB.nb_infusion p) +:+ " par jour".

(** The row of [antibiotics.xlsx] that is in force for a molecule: the
    last one of the file that is not skipped. *)
Definition last_loaded (molecule : string) (df : list PolicyB.row)
  : option PolicyB.row :=
  List.find
    (fun r => String.eqb (PolicyB.Molecule r) molecule && negb (PolicyB.skip r))
    (rev df).

(** The stability that Policy B reads, lines 65 to 69. *)
Definition stabilite_hours (data : PolicyB.entry) : res Q :=
  let* g := index (findall PolicyB.pattern_stabilite (PolicyB.stabilite data)) 0 in
  float g.


(** ** Python floats as the interpreter computes them: IEEE 754 binary64

    The definitions above read a [float] as an exact rational, which is
    what the properties that do not depend on rounding are stated on.
    Below, the same code is embedded once more with the arithmetic of the
    interpreter: a [float] is a binary64 number ([spec_float] with a
    53-bit mantissa), every operation rounds to the nearest double, ties
    to even, and the conversions to [int] raise on [inf] and [nan]. *)

Module PyFloat.

Import SpecFloat.
Local Open Scope Z_scope.

Definition float64 := spec_float.

Definition prec : Z := 53.
Definition emax : Z := 1024.

(** The double nearest to the rational [n / d]: what [float(s)] returns
    for a decimal literal and what [a / b] returns on two ints. *)
Definition nearest (n : Z) (d : positive) : float64 :=
  match n with
  | Z0 => S754_zero false
  | Zpos m => SFdiv prec emax (S754_finite false m 0) (S754_finite false d 0)
  | Zneg m => SFdiv prec emax (S754_finite true m 0) (S754_finite false d 0)
  end.

(** An int literal of the source used as a float: 24, 1000, 50, 10. *)
Definition num (n : Z) : float64 := nearest n 1.

Definition is_zero (x : float64) : bool :=
  match x with
  | S754_zero _ => true
  | _ => false
  end.

Definition is_inf (x : float64) : bool :=
  match x with
  | S754_infinity _ => true
  | _ => false
  end.

(** [float(n)] on an int, as the mixed operations apply it. *)
Definition of_int (n : Z) : res float64 :=
  if is_inf (nearest n 1) then Raise OverflowError else Ok (nearest n 1).

(** [float(s)]: the double nearest to the decimal the string writes. *)
Definition float (s : string) : res float64 :=
  let* q := PyNum.float s in
  Ok (nearest (Qnum q) (Qden q)).

(** [x * y] and [x / y] on floats. *)
Definition mul (x y : float64) : float64 := SFmul prec emax x y.

Definition quotient (x y : float64) : float64 := SFdiv prec emax x y.

Definition div (x y : float64) : res float64 :=
  if is_zero y then Raise ZeroDivisionError else Ok (quotient x y).

(** [a / b] on two ints: the true quotient, rounded once. *)
Definition truediv (a b : Z) : res float64 :=
  match b with
  | Z0 => Raise ZeroDivisionError
  | Zpos d =>
      if is_inf (nearest a d) then Raise OverflowError else Ok (nearest a d)
  | Zneg d =>
      if is_inf (nearest (- a) d) then Raise OverflowError
      else Ok (nearest (- a) d)
  end.

(** [x <= y] on floats; false as soon as one of them is [nan]. *)
Definition le (x y : float64) : bool := SFleb x y.

(** The conversions to int: [f v p] is the integer wanted for [v / p]. *)
Definition to_int (f : Z -> Z -> Z) (x : float64) : res Z :=
  match x with
  | S754_nan => Raise ValueError
  | S754_infinity _ => Raise OverflowError
  | S754_zero _ => Ok 0
  | S754_finite s m e =>
      let v := if s then Zneg m else Zpos m in
      match e with
      | Zneg k => Ok (f v (Zpos (Pos.pow 2 k)))
      | _ => Ok (v * 2 ^ e)
      end
  end.

(** [int(x)]: towards zero. *)
Definition int (x : float64) : res Z := to_int Z.quot x.

(** [math.ceil(x)]. *)
Definition ceil (x : float64) : res Z :=
  to_int (fun v p => - ((- v) / p)) x.

(** [round(x)]: to the nearest integer, a tie going to the even one. *)
Definition round (x : float64) : res Z :=
  to_int
    (fun v p =>
       let q := v / p in
       match Z.compare (2 * (v mod p)) p with
       | Lt => q
       | Gt => q + 1
       | Eq => if Z.even q then q else q + 1
       end)
    x.

End PyFloat.

(** ** Policy A on binary64 *)

Module PolicyA64.

Import PyStr PyNum PyFloat Re.
Local Open Scope Z_scope.

Definition parse_stability (data : PolicyA.variant) : res float64 :=
  let* g := index (findall PolicyA.pattern_stability
                     (str (PolicyA.stability data))) 0 in
  float g.

Definition parse_concentration (data : PolicyA.variant) : res float64 :=
  let concentration_str := str (PolicyA.concentration data) in
  if contains "-" concentration_str then
    let* part := index (split "-" concentration_str) 1 in
    let* g := index (findall PolicyA.pattern_concentration part) 0 in
    float g
  else
    let* g := index (findall PolicyA.pattern_concentration concentration_str) 0 in
    float g.

(** What the run leaves in its variables when it reaches [st.success];
    [hours_shown] is the [int(hours_between)] of the frequency line. *)
Record plan := {
  min_infusions : Z;
  max_val : float64;
  nb_infusion : Z;
  volume_dilution : Z;
  material : PolicyA.material_kind;
  hours_between : float64;
  hours_shown : Z;
  dosage_infusion : float64;
  concentration_shown : float64
}.

(** [(dose / n * 1000) / 50], the concentration in a 50 mL syringe. *)
Definition in_50ml (dose_per_infusion : float64) : float64 :=
  quotient (mul dose_per_infusion (num 1000)) (num 50).

(** The body of the [for n in range(...)] loop, [possible_infusions]
    being threaded through. *)
Fixpoint split_loop (stability_hours max_val dose_24h : float64)
  (ns : list Z) (possible_infusions : list Z) : res (list Z) :=
  match ns with
  | nil => Ok possible_infusions
  | n :: ns' =>
      let* m := mod_ 24 n in
      if (m =? 0)%Z then
        let* hours_between := truediv 24 n in
        if le hours_between stability_hours then
          let* n_float := of_int n in
          let* new_dose_per_infusion := div dose_24h n_float in
          let new_concentration := in_50ml new_dose_per_infusion in
          if le new_concentration max_val
          then split_loop stability_hours max_val dose_24h ns'
                 (possible_infusions ++ n :: nil)
          else split_loop stability_hours max_val dose_24h ns'
                 possible_infusions
        else split_loop stability_hours max_val dose_24h ns' possible_infusions
      else split_loop stability_hours max_val dose_24h ns' possible_infusions
  end.

(** [min_infusions = int(24 / stability_hours)], line 97. *)
Definition minimum (stability_hours : float64) : res Z :=
  let* q := div (num 24) stability_hours in
  int q.

(** [dose_24h / n] for an int [n]. *)
Definition per_infusion (dose_24h : float64) (n : Z) : res float64 :=
  let* n_float := of_int n in
  div dose_24h n_float.

(** The volume of the fallback, lines 129 to 136: the two roundings up. *)
Definition fallback (max_val dose_24h : float64) (nb_infusion : Z) : res Z :=
  let* dose_per_infusion := per_infusion dose_24h nb_infusion in
  let* v := div (mul dose_per_infusion (num 1000)) max_val in
  let* volume_dilution := ceil v in
  let* w := truediv volume_dilution 10 in
  let* c := ceil w in
  Ok (c * 10)%Z.

(** The choice of the number of infusions, the volume and the material,
    lines 96 to 137. *)
Definition choose (stability_hours max_val dose_24h : float64)
  : res (Z * Z * Z * PolicyA.material_kind) :=
  let* min_infusions := minimum stability_hours in
  let* dose_per_min_infusion := per_infusion dose_24h min_infusions in
  let concentration_needed := in_50ml dose_per_min_infusion in
  if le concentration_needed max_val then
    Ok (min_infusions, min_infusions, 50%Z, PolicyA.PSE)
  else
    let* possible_infusions :=
      split_loop stability_hours max_val dose_24h
        (range (min_infusions + 1) (min_infusions * 2 + 1)) nil in
    match possible_infusions with
    | n :: ns => Ok (min_infusions, min_list n ns, 50%Z, PolicyA.PSE)
    | nil =>
        let nb_infusion := min_infusions in
        let* volume_dilution := fallback max_val dose_24h nb_infusion in
        Ok (min_infusions, nb_infusion, volume_dilution, PolicyA.pompe)
    end.

(** The [try] block, lines 83 to 165. *)
Definition solve (data : PolicyA.variant) (dose_24h : float64) : res plan :=
  let* stability_hours := parse_stability data in
  let* max_val := parse_concentration data in
  let* chosen := choose stability_hours max_val dose_24h in
  let '(min_infusions, nb_infusion, volume_dilution, material) := chosen in
  let* hours_between := truediv 24 nb_infusion in
  let* hours_shown := int hours_between in
  let* dosage_infusion := per_infusion dose_24h nb_infusion in
  let* volume_float := of_int volume_dilution in
  let* concentration_shown :=
    div (mul dosage_infusion (num 1000)) volume_float in
  Ok {| min_infusions := min_infusions; max_val := max_val;
        nb_infusion := nb_infusion; volume_dilution := volume_dilution;
        material := material; hours_between := hours_between;
        hours_shown := hours_shown;
        dosage_infusion := dosage_infusion;
        concentration_shown := concentration_shown |}.

(** [molecule in antibiotics], for what the selection box returned:
    [None] when it had nothing to offer. *)
Definition known {V} (store : gmap string V) (molecule : option string) : bool :=
  match molecule with
  | Some m => bool_decide (is_Some (store !! m))
  | None => false
  end.

(** Lines 56 to 71, which run before the button is looked at: [data] is
    bound only when [molecule] is truthy. *)
Definition select (antibiotics : gmap string (list PolicyA.variant))
  (molecule : option string) (selected_solvent : cell)
  : res (option PolicyA.variant) :=
  match molecule with
  | Some m =>
      if String.eqb m "" then Ok None
      else
        match antibiotics !! m with
        | Some variants =>
            match select_data variants selected_solvent with
            | Picked data => Ok (Some data)
            | NoVariant => Raise IndexError
            | NoMatch => Raise StopIteration
            end
        | None => Raise KeyError
        end
  | None => Ok None
  end.

(** The handler of the Calculate button, lines 76 to 170. *)
Definition calculate (antibiotics : gmap string (list PolicyA.variant))
  (molecule : option string) (data : option PolicyA.variant)
  (dose_24h : float64) : outcome plan :=
  if negb (known antibiotics molecule) then Reported MoleculeNotFound
  else if le dose_24h (num 0) then Reported DoseNotPositive
  else
    match data with
    | Some data => catch (solve data dose_24h) PolicyA.handler
    | None => Uncaught NameError
    end.

(** One run of the script with the button pressed. *)
Definition run (antibiotics : gmap string (list PolicyA.variant))
  (molecule : option string) (selected_solvent : cell)
  (dose_24h : float64) : outcome plan :=
  let+ data := bare (select antibiotics molecule selected_solvent) in
  calculate antibiotics molecule data dose_24h.

End PolicyA64.

(** ** Policy B on binary64 *)

Module PolicyB64.

Import PyStr PyNum PyFloat Re.
Local Open Scope Z_scope.

Record plan := {
  stability_hours : float64;
  nb_infusion : Z;
  hours_shown : Z;
  dosage_infusion : float64;
  max_val : float64;
  vol_ref : float64;
  volume_dilution : float64;
  volume_dilution_arrondi : Z;
  materiel : PolicyB.materiel_kind
}.

(** Lines 103 to 106, inside the [try]. *)
Definition volumes (dosage_infusion max_val vol_ref : float64)
  : res (float64 * Z) :=
  let* volume_dilution := div (mul dosage_infusion vol_ref) max_val in
  let* r := round (quotient volume_dilution (num 10)) in
  Ok (volume_dilution, (r * 10)%Z).

(** The [try] block of lines 92 to 109. *)
Definition dilution (dilution_str : string) (dosage_infusion : float64)
  : outcome (float64 * float64 * (float64 * Z)) :=
  let match1 := search PolicyB.pattern1 dilution_str in
  let match2 := search PolicyB.pattern2 dilution_str in
  match match1 with
  | Some (m1, _) =>
      catch
        (let* max_val := float (replace "," "." (group m1 2)) in
         let* vol_ref := float (replace "," "." (group m1 3)) in
         let* v := volumes dosage_infusion max_val vol_ref in
         Ok (max_val, vol_ref, v))
        PolicyB.handler_dilution
  | None =>
      match match2 with
      | Some (m2, _) =>
          catch
            (let* max_val := float (replace "," "." (group m2 1)) in
             let* vol_ref := float (replace "," "." (group m2 2)) in
             let* v := volumes dosage_infusion max_val vol_ref in
             Ok (max_val, vol_ref, v))
            PolicyB.handler_dilution
      | None => Reported DilutionNotRecognised
      end
  end.

(** The [else] branch of the handler, lines 62 to 130. *)
Definition solve (data : PolicyB.entry) (dose_24h : float64) : outcome plan :=
  let+ stability_hours :=
    catch (let* g := index (findall PolicyB.pattern_stabilite
                              (PolicyB.stabilite data)) 0 in
           float g)
      PolicyB.handler_stabilite in
  let+ nb_infusion :=
    bare (let* q := div (num 24) stability_hours in int q) in
  let+ hours_shown := bare (int stability_hours) in
  let+ dosage_infusion :=
    bare (let* n_float := of_int nb_infusion in div dose_24h n_float) in
  let+ dilution_str := bare (PolicyB.as_str (PolicyB.dilution_pratique data)) in
  let+ d := dilution dilution_str dosage_infusion in
  let '(max_val, vol_ref, (volume_dilution, volume_dilution_arrondi)) := d in
  Success {| stability_hours := stability_hours; nb_infusion := nb_infusion;
             hours_shown := hours_shown;
             dosage_infusion := dosage_infusion; max_val := max_val;
             vol_ref := vol_ref; volume_dilution := volume_dilution;
             volume_dilution_arrondi := volume_dilution_arrondi;
             materiel :=
               PolicyB.choose_materiel (PolicyB.duree_administration data)
                 volume_dilution_arrondi |}.

(** The handler of the Calculer button. *)
Definition calculer (antibiotiques : gmap string PolicyB.entry)
  (molecule : option string) (dose_24h : float64) : outcome plan :=
  match molecule with
  | Some m =>
      match antibiotiques !! m with
      | Some data =>
          if le dose_24h (num 0) then Reported DoseNotPositive
          else solve data dose_24h
      | None => Reported MoleculeNotFound
      end
  | None => Reported MoleculeNotFound
  end.

End PolicyB64.

(** ** The statements of the specification on binary64 *)

(** The three conditions of the search of Policy A on a number [n] of
    infusions, each computed as the interpreter computes it:
    [24 % n == 0], [24 / n <= stability_hours] and
    [(dose_24h / n * 1000) / 50 <= max_val]. *)
Definition constraint64 (stability_hours max_val dose_24h : PyFloat.float64)
  (n : Z) : bool :=
  (24 mod n =? 0)%Z
  && PyFloat.le (PyFloat.nearest 24 (Z.to_pos n)) stability_hours
  && PyFloat.le
       (PolicyA64.in_50ml (PyFloat.quotient dose_24h (PyFloat.num n)))
       max_val.

(** Step 6 of Policy A: the ascending search from [min_infusions + 1] to
    [2 * min_infusions], the first number that passes wins. *)
Definition first_match64 (stability_hours max_val dose_24h : PyFloat.float64)
  (min_infusions : Z) : option Z :=
  first_from (constraint64 stability_hours max_val dose_24h)
    (min_infusions + 1) (Z.to_nat min_infusions).

(** The rational a finite double stands for. *)
Definition exact (x : PyFloat.float64) : Q :=
  match x with
  | SpecFloat.S754_finite s m e =>
      let v := if s then Zneg m else Zpos m in
      match e with
      | Zneg k => v # Pos.pow 2 k
      | _ => inject_Z (v * 2 ^ e)
      end
  | _ => 0%Q
  end.

(** [dose_per_infusion * 1000 / v <= max_val]: the concentration cap on a
    volume of [v] mL, computed as the result message computes the
    concentration. *)
Definition within_cap (dose_per_infusion max_val : PyFloat.float64) (v : Z)
  : bool :=
  PyFloat.le
    (PyFloat.quotient (PyFloat.mul dose_per_infusion (PyFloat.num 1000))
       (PyFloat.num v))
    max_val.

(** * Lemmas *)

(** ** Strings *)

Lemma append_cons (x : ascii) (a b : string) :
  String x a +:+ b = String x (a +:+ b).
Proof. reflexivity. Qed.

Lemma append_nil_l (b : string) : EmptyString +:+ b = b.
Proof. reflexivity. Qed.

Lemma append_assoc (a b c : string) : (a +:+ b) +:+ c = a +:+ (b +:+ c).
Proof.
  induction a as [|x a IH]; [reflexivity|].
  now rewrite !append_cons, IH.
Qed.

Lemma append_nil_r (a : string) : a +:+ EmptyString = a.
Proof.
  induction a as [|x a IH]; [reflexivity|]. now rewrite append_cons, IH.
Qed.

Lemma length_append (a b : string) :
  String.length (a +:+ b) = (String.length a + String.length b)%nat.
Proof.
  induction a as [|x a IH]; [reflexivity|].
  rewrite append_cons. cbn [String.length]. now rewrite IH.
Qed.

Lemma substring_prefix (a b : string) :
  substring 0 (String.length a) (a +:+ b) = a.
Proof.
  induction a as [|x a IH].
  - destruct b; reflexivity.
  - rewrite append_cons. cbn [String.length substring]. now rewrite IH.
Qed.

Lemma consumed_append (w s : string) : consumed (w +:+ s) s = w.
Proof.
  unfold consumed. rewrite length_append.
  replace (String.length w + String.length s - String.length s)%nat
    with (String.length w) by lia.
  apply substring_prefix.
Qed.

Lemma star_sound p k s m :
  star p k s = Some m ->
  exists w s', s = w +:+ s' /\ all p w = true /\ k s' = Some m.
Proof.
  induction s as [|c s IH]; cbn [star]; intros H.
  - exists EmptyString, EmptyString. auto.
  - destruct (p c) eqn:Hc.
    + destruct (star p k s) as [m'|] eqn:E.
      * injection H as ->. destruct (IH eq_refl) as (w & s' & -> & Hw & Hk).
        exists (String c w), s'. cbn. rewrite Hc, Hw. auto.
      * exists EmptyString, (String c s). auto.
    + exists EmptyString, (String c s). auto.
Qed.

Lemma exec_sound r : forall s cs k m,
  exec r s cs k = Some m ->
  exists w s' gs, s = w +:+ s' /\ sem r w gs /\ k s' (gs ++ cs)%list = Some m.
Proof.
  induction r as [p|p|p|r1 IH1|r1 IH1 r2 IH2|i r1 IH1|]; intros s cs k m H; cbn [exec] in H.
  - destruct s as [|c s]; [discriminate|]. destruct (p c) eqn:Hc; [|discriminate].
    exists (String c EmptyString), s, nil. cbn. eauto 6.
  - apply star_sound in H. destruct H as (w & s' & -> & Hw & Hk).
    exists w, s', nil. cbn. auto.
  - destruct s as [|c s]; [discriminate|]. destruct (p c) eqn:Hc; [|discriminate].
    apply star_sound in H. destruct H as (w & s' & -> & Hw & Hk).
    exists (String c w), s', nil. cbn. rewrite Hc, Hw. repeat split; auto; discriminate.
  - destruct (exec r1 s cs k) as [m'|] eqn:E.
    + injection H as ->. apply IH1 in E. destruct E as (w & s' & gs & -> & Hw & Hk).
      exists w, s', gs. cbn. auto.
    + exists EmptyString, s, nil. cbn. auto.
  - apply IH1 in H. destruct H as (a & s1 & g1 & -> & Ha & H).
    apply IH2 in H. destruct H as (b & s2 & g2 & -> & Hb & H).
    exists (a +:+ b), s2, (g2 ++ g1)%list. rewrite append_assoc, <- app_assoc.
    repeat split; auto. cbn. exists a, b, g1, g2. auto.
  - apply IH1 in H. destruct H as (w & s' & g1 & -> & Hw & H).
    rewrite consumed_append in H.
    exists w, s', ((i, w) :: g1). cbn. eauto.
  - exists EmptyString, s, nil. cbn. auto.
Qed.

Lemma search_sound r s cs rest :
  search r s = Some (cs, rest) ->
  exists pre w, s = pre +:+ w +:+ rest /\ sem r w cs.
Proof.
  induction s as [|c s IH]; cbn [search]; intros H.
  - destruct (match_at r EmptyString) as [m|] eqn:E; [|discriminate].
    injection H as ->. unfold match_at in E. apply exec_sound in E.
    destruct E as (w & s' & gs & Hs & Hw & Hk). rewrite app_nil_r in Hk.
    injection Hk as <- <-. exists EmptyString, w. auto.
  - destruct (match_at r (String c s)) as [m|] eqn:E.
    + injection H as ->. unfold match_at in E. apply exec_sound in E.
      destruct E as (w & s' & gs & Hs & Hw & Hk). rewrite app_nil_r in Hk.
      injection Hk as <- <-. exists EmptyString, w. auto.
    + destruct (IH H) as (pre & w & -> & Hw). exists (String c pre), w. auto.
Qed.

Lemma findall_first r s :
  index (findall r s) 0 =
  match search r s with
  | Some (cs, _) => Ok (group cs 1)
  | None => Raise IndexError
  end.
Proof.
  unfold findall. cbn [findall_fuel].
  destruct (search r s) as [[cs rest]|]; reflexivity.
Qed.

Lemma digits_value_nonneg s : forall acc n,
  digits_value acc s = Some n -> (0 <= acc)%Z -> (0 <= n)%Z.
Proof.
  induction s as [|c s IH]; cbn [digits_value]; intros acc n H Hacc.
  - injection H as <-. exact Hacc.
  - destruct (is_digit c) eqn:Hc; [|discriminate].
    apply IH in H; [exact H|].
    unfold is_digit in Hc. apply andb_prop in Hc. destruct Hc as [H1 _].
    apply N.leb_le in H1. lia.
Qed.

Lemma float_nonneg s q : float s = Ok q -> (0 <= q)%Q.
Proof.
  unfold float. intros H.
  destruct (match split "." s with
            | ip :: nil => Some (ip, EmptyString)
            | ip :: fp :: nil => Some (ip, fp)
            | _ => None end) as [[ip fp]|]; [|discriminate].
  destruct (digits_value 0 (ip +:+ fp)) as [n|] eqn:E; [|discriminate].
  destruct (Nat.eqb _ 0); [discriminate|]. injection H as <-.
  apply digits_value_nonneg in E; [|lia].
  unfold Qle. cbn. lia.
Qed.

Lemma digits_value_all s : forall acc,
  all is_digit s = true -> exists n, digits_value acc s = Some n.
Proof.
  induction s as [|c s IH]; cbn [digits_value all]; intros acc H.
  - eauto.
  - apply andb_prop in H. destruct H as [Hc Hs]. rewrite Hc. auto.
Qed.

Lemma split_digits s :
  all is_digit s = true -> split "." s = s :: nil.
Proof.
  induction s as [|c s IH]; cbn [split all]; intros H; [reflexivity|].
  apply andb_prop in H. destruct H as [Hc Hs]. rewrite (IH Hs).
  destruct (Ascii.eqb "." c) eqn:E; [|reflexivity].
  apply Ascii.eqb_eq in E. subst c. discriminate.
Qed.

(** [float] of a non-empty string of digits is a natural number. *)
Lemma float_digits s :
  all is_digit s = true -> s <> EmptyString ->
  exists n, (0 <= n)%Z /\ float s = Ok (inject_Z n).
Proof.
  intros Hs Hne. unfold float. rewrite (split_digits s Hs), append_nil_r.
  destruct (digits_value_all s 0 Hs) as [n Hn]. rewrite Hn.
  destruct s as [|c s]; [contradiction|]. cbn [String.length Nat.eqb].
  exists n. split; [|reflexivity].
  apply digits_value_nonneg in Hn; [exact Hn|lia].
Qed.


(** ** Policy A *)

Import PolicyA.
Local Open Scope Q_scope.

Lemma parse_stability_integral data s :
  parse_stability data = Ok s -> exists n, (0 <= n)%Z /\ s = inject_Z n.
Proof.
  unfold parse_stability. rewrite findall_first.
  destruct (search pattern_stability (str (stability data))) as [[cs rest]|] eqn:E;
    [|discriminate].
  cbn [bind]. intros H.
  apply search_sound in E. destruct E as (pre & w & _ & Hsem).
  cbn in Hsem.
  destruct Hsem as (a & b & g1 & g2 & _ & -> & (g0 & ((Ha & Hne) & ->) & ->) & Hb).
  destruct Hb as (? & ? & ? & ? & _ & -> & (_ & ->) & Hb).
  destruct Hb as (? & ? & ? & ? & _ & -> & Hh & (_ & ->)).
  destruct Hh as (? & ? & ? & ? & _ & -> & (_ & ->) & (_ & ->)).
  cbn [app group Nat.eqb] in H.
  destruct (float_digits a Ha Hne) as (n & Hn & Hf).
  rewrite Hf in H. injection H as <-. eauto.
Qed.

Lemma Qeq_bool_false (x : Q) : ~ x == 0 -> Qeq_bool x 0 = false.
Proof.
  intros H. destruct (Qeq_bool x 0) eqn:E; [|reflexivity].
  apply Qeq_bool_iff in E. contradiction.
Qed.

Lemma inject_Z_nonzero (n : Z) : n <> 0%Z -> Qeq_bool (inject_Z n) 0 = false.
Proof.
  intros H. apply Qeq_bool_false. intros E.
  unfold Qeq in E. simpl in E. lia.
Qed.

Lemma split_loop_filter s m d ns acc :
  Forall (fun n => n <> 0%Z) ns ->
  PolicyA.split_loop s m d ns acc = Ok (acc ++ List.filter (constraint s m d) ns)%list.
Proof.
  revert acc. induction ns as [|n ns IH]; intros acc Hnz; simpl.
  - now rewrite app_nil_r.
  - inversion Hnz as [|? ? Hn Hns]; subst.
    unfold mod_, div.
    rewrite (proj2 (Z.eqb_neq n 0) Hn), (inject_Z_nonzero n Hn).
    unfold constraint at 1, conc50. cbn [bind].
    destruct (24 mod n =? 0)%Z; cbn [andb]; [|now apply IH].
    destruct (Qle_bool (24 / inject_Z n) s); cbn [andb]; [|now apply IH].
    destruct (Qle_bool _ m); [|now apply IH].
    rewrite IH by assumption. now rewrite <- app_assoc.
Qed.

Lemma range_nil lo hi : (hi <= lo)%Z -> range lo hi = nil.
Proof.
  intros H. unfold range. replace (Z.to_nat (hi - lo)) with O by lia. reflexivity.
Qed.

Lemma range_cons lo hi : (lo < hi)%Z -> range lo hi = lo :: range (lo + 1) hi.
Proof.
  intros H. unfold range.
  replace (Z.to_nat (hi - lo)) with (S (Z.to_nat (hi - (lo + 1)))) by lia.
  cbn [seq map]. f_equal; [lia|].
  rewrite <- seq_shift, map_map. apply map_ext. intros i. lia.
Qed.

Lemma in_range lo hi n : In n (range lo hi) <-> (lo <= n < hi)%Z.
Proof.
  unfold range. rewrite in_map_iff. split.
  - intros (i & <- & Hi). apply in_seq in Hi. lia.
  - intros H. exists (Z.to_nat (n - lo)). split; [lia|]. apply in_seq. lia.
Qed.

Lemma first_from_filter f count lo :
  first_from f lo count = hd_error (List.filter f (range lo (lo + Z.of_nat count))).
Proof.
  revert lo. induction count as [|c IH]; intros lo.
  - rewrite range_nil by lia. reflexivity.
  - rewrite range_cons by lia. cbn [first_from List.filter].
    destruct (f lo); [reflexivity|].
    rewrite IH. do 3 f_equal. lia.
Qed.

Lemma filter_range_sorted f count lo hi n ns :
  Z.to_nat (hi - lo) = count ->
  List.filter f (range lo hi) = n :: ns ->
  (lo <= n)%Z /\ Forall (fun x => (n <= x)%Z) ns.
Proof.
  revert lo. induction count as [|c IH]; intros lo Hc Hf.
  - rewrite range_nil in Hf by lia. discriminate.
  - rewrite range_cons in Hf by lia. cbn [List.filter] in Hf.
    destruct (f lo).
    + injection Hf as <- <-. split; [lia|].
      apply List.Forall_forall. intros x Hx.
      apply filter_In in Hx. destruct Hx as [Hx _]. apply in_range in Hx. lia.
    + apply IH in Hf; [|lia]. destruct Hf as [Hlo Hall]. split; [lia|exact Hall].
Qed.

Lemma min_list_head n ns :
  Forall (fun x => (n <= x)%Z) ns -> min_list n ns = n.
Proof.
  unfold min_list. induction 1 as [|x ns Hx _ IH]; cbn [fold_left]; [reflexivity|].
  now rewrite Z.min_l.
Qed.

Lemma Qle_bool_false x y : Qle_bool x y = false <-> ~ x <= y.
Proof.
  rewrite <- Qle_bool_iff. destruct (Qle_bool x y); split; congruence.
Qed.

Lemma choose_cases s m d :
  ~ s == 0 -> (1 <= int (24 / s))%Z ->
  let mn := int (24 / s) in
  (conc50 d mn <= m /\ choose s m d = Ok (mn, mn, 50%Z, PSE))
  \/ (~ conc50 d mn <= m /\
      exists n, first_match s m d mn = Some n
                /\ choose s m d = Ok (mn, n, 50%Z, PSE))
  \/ (~ conc50 d mn <= m /\ first_match s m d mn = None
      /\ choose s m d =
         if Qeq_bool m 0 then Raise ZeroDivisionError
         else Ok (mn, mn, fallback_volume m d mn, pompe)).
Proof.
  intros Hs Hmn mn. unfold choose, div.
  rewrite (Qeq_bool_false s Hs). cbn [bind]. fold mn.
  rewrite (inject_Z_nonzero mn) by (subst mn; lia). cbn [bind].
  change (d / inject_Z mn * 1000 / 50) with (conc50 d mn).
  destruct (Qle_bool (conc50 d mn) m) eqn:E.
  - left. split; [now apply Qle_bool_iff|reflexivity].
  - right. apply Qle_bool_false in E.
    rewrite split_loop_filter.
    2:{ apply List.Forall_forall. intros x Hx. apply in_range in Hx. subst mn. lia. }
    cbn [bind app]. unfold first_match. rewrite first_from_filter.
    replace (mn + 1 + Z.of_nat (Z.to_nat mn))%Z with (mn * 2 + 1)%Z by (subst mn; lia).
    destruct (List.filter _ _) as [|n ns] eqn:F; cbn [hd_error].
    + right. split; [exact E|]. split; [reflexivity|].
      destruct (Qeq_bool m 0); cbn [bind]; [reflexivity|].
      change (Qeq_bool 10 0) with false. cbn [bind]. reflexivity.
    + left. split; [exact E|]. exists n. split; [reflexivity|].
      apply (filter_range_sorted _ _ _ _ _ _ eq_refl) in F.
      now rewrite (min_list_head n ns) by apply F.
Qed.

Lemma div_ok (x y q : Q) : div x y = Ok q -> ~ y == 0 /\ q = x / y.
Proof.
  unfold div. destruct (Qeq_bool y 0) eqn:E; [discriminate|].
  intros H. injection H as <-. split; [|reflexivity].
  intros F. apply Qeq_bool_iff in F. congruence.
Qed.

Lemma inject_Z_eq0 (n : Z) : inject_Z n == 0 <-> n = 0%Z.
Proof. unfold Qeq. cbn. lia. Qed.

Lemma choose_ok_inv s m d r :
  choose s m d = Ok r -> ~ s == 0 /\ int (24 / s) <> 0%Z.
Proof.
  unfold choose. destruct (div 24 s) as [q|e] eqn:E1; cbn [bind]; [|discriminate].
  apply div_ok in E1. destruct E1 as [Hs ->].
  destruct (div d (inject_Z (int (24 / s)))) as [q|e] eqn:E2; cbn [bind]; [|discriminate].
  apply div_ok in E2. destruct E2 as [Hn _]. rewrite inject_Z_eq0 in Hn. auto.
Qed.

Lemma solve_inv data d p :
  solve data d = Ok p ->
  exists s,
    parse_stability data = Ok s
    /\ parse_concentration data = Ok (max_val p)
    /\ choose s (max_val p) d
       = Ok (min_infusions p, nb_infusion p, volume_dilution p, material p)
    /\ nb_infusion p <> 0%Z /\ volume_dilution p <> 0%Z
    /\ hours_between p = 24 / inject_Z (nb_infusion p)
    /\ dosage_infusion p = d / inject_Z (nb_infusion p)
    /\ concentration_shown p
       = dosage_infusion p * 1000 / inject_Z (volume_dilution p).
Proof.
  unfold solve.
  destruct (parse_stability data) as [s|e]; cbn [bind]; [|discriminate].
  destruct (parse_concentration data) as [m|e]; cbn [bind]; [|discriminate].
  destruct (choose s m d) as [[[[mn nb] vol] mat]|e] eqn:E0; cbn [bind];
    [|discriminate].
  destruct (div 24 (inject_Z nb)) as [h|e] eqn:E1; cbn [bind]; [|discriminate].
  destruct (div d (inject_Z nb)) as [dg|e] eqn:E2; cbn [bind]; [|discriminate].
  destruct (div (dg * 1000) (inject_Z vol)) as [c|e] eqn:E3; cbn [bind]; [|discriminate].
  intros H. injection H as <-. cbn.
  apply div_ok in E1, E2, E3. destruct E1 as [Hnb ->], E2 as [_ ->], E3 as [Hvol ->].
  rewrite inject_Z_eq0 in Hnb, Hvol.
  exists s. repeat split; auto.
Qed.

(** The stability that was read is a positive number of hours, with at
    least one infusion a day, whenever the choice is made at all. *)
Lemma reached data d s m r :
  parse_stability data = Ok s -> choose s m d = Ok r ->
  ~ s == 0 /\ (1 <= int (24 / s))%Z
  /\ exists k, (1 <= k <= 24)%Z /\ s = inject_Z k.
Proof.
  intros Hs Hc. apply choose_ok_inv in Hc. destruct Hc as [Hs0 Hmn].
  apply parse_stability_integral in Hs. destruct Hs as (k & Hk & ->).
  rewrite inject_Z_eq0 in Hs0.
  assert (Hk1 : (1 <= k)%Z) by lia.
  assert (Hint : int (24 / inject_Z k) = (24 / k)%Z).
  { unfold int. destruct k as [|k|k]; try lia. cbn.
    rewrite Z.quot_div_nonneg by lia. f_equal. }
  rewrite Hint in *.
  assert (0 <= 24 / k)%Z by (apply Z.div_pos; lia).
  assert (k <= 24)%Z.
  { destruct (Z_le_gt_dec k 24); [assumption|]. rewrite Z.div_small in Hmn; lia. }
  repeat split; [rewrite inject_Z_eq0; lia|lia|eauto].
Qed.

Lemma first_from_some f count : forall lo n,
  first_from f lo count = Some n ->
  f n = true /\ (lo <= n < lo + Z.of_nat count)%Z
  /\ forall x, (lo <= x < n)%Z -> f x = false.
Proof.
  induction count as [|c IH]; intros lo n H; cbn [first_from] in H; [discriminate|].
  destruct (f lo) eqn:E.
  - injection H as <-. repeat split; [exact E|lia|lia|]. intros x Hx. lia.
  - apply IH in H. destruct H as (Hn & Hr & Hmin).
    repeat split; [exact Hn|lia|lia|].
    intros x Hx. destruct (Z.eq_dec x lo) as [->|Hne]; [exact E|]. apply Hmin. lia.
Qed.

Lemma constraint_true s m d n :
  constraint s m d n = true ->
  (24 mod n = 0)%Z /\ 24 / inject_Z n <= s /\ conc50 d n <= m.
Proof.
  unfold constraint. intros H.
  apply andb_prop in H. destruct H as [H H3].
  apply andb_prop in H. destruct H as [H1 H2].
  apply Z.eqb_eq in H1. apply Qle_bool_iff in H2, H3. auto.
Qed.

Lemma int_hours (k : Z) : (1 <= k)%Z -> int (24 / inject_Z k) = (24 / k)%Z.
Proof.
  intros Hk. unfold int. destruct k as [|k|k]; try lia. cbn.
  now rewrite Z.quot_div_nonneg by lia.
Qed.


(** ** The matcher finds a match whenever there is one *)

Lemma star_complete p k s :
  star p k s = None ->
  forall w s', s = w +:+ s' -> all p w = true -> k s' = None.
Proof.
  induction s as [|c s IH]; cbn [star]; intros H w s' Hs Hw.
  - destruct w; [|discriminate]. rewrite append_nil_l in Hs. now subst s'.
  - destruct w as [|x w].
    + rewrite append_nil_l in Hs. subst s'.
      destruct (p c); [destruct (star p k s); [discriminate|exact H]|exact H].
    + rewrite append_cons in Hs. injection Hs as <- ->.
      cbn [all] in Hw. apply andb_prop in Hw. destruct Hw as [Hx Hw].
      rewrite Hx in H. destruct (star p k (w +:+ s')) eqn:E; [discriminate|].
      now apply (IH eq_refl w s').
Qed.

Lemma exec_complete r : forall s cs k,
  exec r s cs k = None ->
  forall w s' gs, s = w +:+ s' -> sem r w gs -> k s' (gs ++ cs)%list = None.
Proof.
  induction r as [p|p|p|r1 IH1|r1 IH1 r2 IH2|i r1 IH1|];
    intros s cs k H w s' gs Hs Hw; cbn [exec] in H; cbn [sem] in Hw.
  - destruct Hw as [(c & -> & Hc) ->]. rewrite append_cons, append_nil_l in Hs.
    subst s. now rewrite Hc in H.
  - destruct Hw as [Hw ->]. now apply (star_complete _ _ _ H w s').
  - destruct Hw as [[Hw Hne] ->]. destruct w as [|c w]; [contradiction|].
    rewrite append_cons in Hs. subst s.
    cbn [all] in Hw. apply andb_prop in Hw. destruct Hw as [Hc Hw].
    rewrite Hc in H. now apply (star_complete _ _ _ H w s').
  - destruct (exec r1 s cs k) eqn:E; [discriminate|].
    destruct Hw as [[-> ->]|Hw].
    + rewrite append_nil_l in Hs. now subst s'.
    + now apply (IH1 _ _ _ E w s' gs).
  - destruct Hw as (a & b & g1 & g2 & -> & -> & Ha & Hb).
    rewrite append_assoc in Hs.
    assert (E := IH1 _ _ _ H a (b +:+ s') g1 Hs Ha). cbn beta in E.
    rewrite <- app_assoc. now apply (IH2 _ _ _ E b s' g2).
  - destruct Hw as (g1 & Hw & ->).
    assert (E := IH1 _ _ _ H w s' g1 Hs Hw). cbn beta in E.
    subst s. now rewrite consumed_append in E.
  - destruct Hw as [-> ->]. rewrite append_nil_l in Hs. now subst s'.
Qed.

Lemma search_complete r s :
  search r s = None ->
  forall pre w post gs, s = pre +:+ w +:+ post -> sem r w gs -> False.
Proof.
  induction s as [|c s IH]; cbn [search]; intros H pre w post gs Hs Hw.
  - destruct (match_at r EmptyString) eqn:E; [discriminate|].
    destruct pre; [|discriminate]. rewrite append_nil_l in Hs.
    unfold match_at in E.
    assert (F := exec_complete _ _ _ _ E w post gs Hs Hw). discriminate.
  - destruct (match_at r (String c s)) eqn:E; [discriminate|].
    destruct pre as [|x pre].
    + rewrite append_nil_l in Hs. unfold match_at in E.
      assert (F := exec_complete _ _ _ _ E w post gs Hs Hw). discriminate.
    + rewrite append_cons in Hs. injection Hs as _ Hs.
      exact (IH H pre w post gs Hs Hw).
Qed.

(** [re.search] finds a match exactly when a word of the pattern occurs
    in the string. *)
Lemma search_occurs r s :
  (exists m, search r s = Some m) <-> occurs r s.
Proof.
  split.
  - intros [[cs rest] H]. apply search_sound in H.
    destruct H as (pre & w & Hs & Hw). exists pre, w, rest, cs. auto.
  - intros (pre & w & post & gs & Hs & Hw).
    destruct (search r s) as [m|] eqn:E; [eauto|].
    exfalso. exact (search_complete _ _ E pre w post gs Hs Hw).
Qed.

(** ** Decimal numbers *)

Lemma all_append p a b : all p (a +:+ b) = all p a && all p b.
Proof.
  induction a as [|c a IH]; [reflexivity|].
  rewrite append_cons. cbn [all]. now rewrite IH, andb_assoc.
Qed.

Lemma digit_not_sep c :
  is_digit c = true ->
  Ascii.eqb "," c = false /\ Ascii.eqb "." c = false
  /\ Ascii.eqb c "." = false /\ Ascii.eqb c "," = false.
Proof.
  intros H. repeat split; apply Ascii.eqb_neq; intros E; subst c; discriminate.
Qed.

Lemma replace_digits s : all is_digit s = true -> replace "," "." s = s.
Proof.
  induction s as [|c s IH]; cbn [all replace]; intros H; [reflexivity|].
  apply andb_prop in H. destruct H as [Hc Hs].
  destruct (digit_not_sep c Hc) as (-> & _). now rewrite IH.
Qed.

Lemma replace_append a b x y :
  replace a b (x +:+ y) = replace a b x +:+ replace a b y.
Proof.
  induction x as [|c x IH]; [reflexivity|].
  rewrite append_cons. cbn [replace]. now rewrite IH.
Qed.

Lemma split_append_point x y :
  all is_digit x = true ->
  split "." (x +:+ String "." y) = x :: split "." y.
Proof.
  induction x as [|c x IH]; intros H.
  - rewrite append_nil_l. reflexivity.
  - cbn [all] in H. apply andb_prop in H. destruct H as [Hc Hx].
    rewrite append_cons. cbn [split]. rewrite (IH Hx).
    now destruct (digit_not_sep c Hc) as (_ & -> & _).
Qed.

Lemma digits_value_append x : forall acc y n,
  digits_value acc x = Some n -> digits_value acc (x +:+ y) = digits_value n y.
Proof.
  induction x as [|c x IH]; intros acc y n H.
  - injection H as <-. reflexivity.
  - rewrite append_cons. cbn [digits_value] in *.
    destruct (is_digit c); [|discriminate]. now apply IH.
Qed.

Lemma length_nonempty s : s <> EmptyString -> Nat.eqb (String.length s) 0 = false.
Proof. destruct s; [contradiction|reflexivity]. Qed.

Lemma pow10_spec n : Z.to_pos (10 ^ Z.of_nat n) = pow10 n.
Proof.
  induction n as [|n IH]; [reflexivity|].
  rewrite Nat2Z.inj_succ, Z.pow_succ_r by lia.
  rewrite Z2Pos.inj_mul by (try apply Z.pow_pos_nonneg; lia).
  cbn [pow10]. now rewrite IH.
Qed.

Lemma read_digits_before x : forall num den rest n,
  all is_digit x = true -> digits_value num x = Some n ->
  read_digits (x +:+ rest) num den false = read_digits rest n den false.
Proof.
  induction x as [|c x IH]; intros num den rest n Hx Hn.
  - injection Hn as <-. reflexivity.
  - rewrite append_cons. cbn [all digits_value read_digits] in *.
    apply andb_prop in Hx. destruct Hx as [Hc Hx]. rewrite Hc in *.
    now apply IH.
Qed.

Lemma read_digits_after y : forall num den n,
  all is_digit y = true -> digits_value num y = Some n ->
  read_digits y num den true = Some (n # den * pow10 (String.length y)).
Proof.
  induction y as [|c y IH]; intros num den n Hy Hn.
  - injection Hn as <-. cbn. now rewrite Pos.mul_1_r.
  - cbn [all digits_value read_digits String.length pow10] in *.
    apply andb_prop in Hy. destruct Hy as [Hc Hy]. rewrite Hc in *.
    rewrite (IH _ _ _ Hy Hn). do 2 f_equal. lia.
Qed.

(** The shape of what a group [\d+(?:[.,]\d+)?] holds. *)
Lemma sem_number_inv g gs :
  sem PolicyB.number g gs ->
  gs = nil
  /\ exists ip, all is_digit ip = true /\ ip <> EmptyString
     /\ (g = ip
         \/ exists c fp, (c = "."%char \/ c = ","%char)
              /\ all is_digit fp = true /\ fp <> EmptyString
              /\ g = ip +:+ String c fp).
Proof.
  unfold PolicyB.number, digits. cbn [sem].
  intros (a & b & g1 & g2 & -> & -> & ((Ha & Hne) & ->) & Hb).
  destruct Hb as [[-> ->]|(x & y & g3 & g4 & -> & -> & ((c & -> & Hc) & ->) & ((Hy & Hyne) & ->))].
  - split; [reflexivity|]. exists a. rewrite append_nil_r. auto.
  - split; [reflexivity|]. exists a. repeat split; auto. right. exists c, y.
    repeat split; auto.
    unfold is_char in Hc. apply orb_prop in Hc.
    destruct Hc as [Hc|Hc]; apply Ascii.eqb_eq in Hc; auto.
Qed.

(** On such a group, replacing the comma and calling [float] reads the
    decimal number, whichever separator it is written with. *)
Lemma float_number g gs :
  sem PolicyB.number g gs ->
  exists q, float (replace "," "." g) = Ok q /\ read_decimal g = Some q.
Proof.
  intros H. apply sem_number_inv in H.
  destruct H as (_ & ip & Hip & Hne & [->|(c & fp & Hc & Hfp & Hfne & ->)]).
  - destruct (digits_value_all ip 0 Hip) as [n Hn].
    exists (inject_Z n). split.
    + rewrite replace_digits by exact Hip. unfold float.
      rewrite (split_digits ip Hip), append_nil_r, Hn, (length_nonempty ip Hne).
      reflexivity.
    + unfold read_decimal. rewrite <- (append_nil_r ip).
      now rewrite (read_digits_before ip 0 1 EmptyString n Hip Hn).
  - destruct (digits_value_all ip 0 Hip) as [n Hn].
    destruct (digits_value_all fp n Hfp) as [n' Hn'].
    exists (n' # pow10 (String.length fp)). split.
    + rewrite replace_append, (replace_digits ip Hip).
      assert (Hr : replace "," "." (String c fp) = String "." fp).
      { cbn [replace]. rewrite (replace_digits fp Hfp).
        destruct Hc as [-> | ->]; reflexivity. }
      rewrite Hr. unfold float.
      rewrite (split_append_point ip fp Hip), (split_digits fp Hfp).
      rewrite (digits_value_append ip 0 fp n Hn), Hn'.
      rewrite length_nonempty, pow10_spec; [reflexivity|].
      destruct ip; [contradiction|discriminate].
    + unfold read_decimal.
      rewrite (read_digits_before ip 0 1 (String c fp) n Hip Hn).
      cbn [read_digits].
      assert (Hd : is_digit c = false) by (destruct Hc as [-> | ->]; reflexivity).
      assert (Hs : (Ascii.eqb c "." || Ascii.eqb c ",") = true)
        by (destruct Hc as [-> | ->]; reflexivity).
      rewrite Hd, Hs. cbn [negb andb].
      now rewrite (read_digits_after fp n 1 n' Hfp Hn').
Qed.

(** ** Policy B *)

Ltac break :=
  repeat match goal with
         | H : exists _, _ |- _ => destruct H
         | H : _ /\ _ |- _ => destruct H
         end.

Lemma sem_number_nil g gs : sem PolicyB.number g gs -> sem PolicyB.number g nil.
Proof.
  intros H. destruct (sem_number_inv _ _ H) as [-> _]. exact H.
Qed.

Lemma sem_pattern1_inv w gs :
  sem PolicyB.pattern1 w gs ->
  exists A B C,
    gs = (3%nat, C) :: (2%nat, B) :: (1%nat, A) :: nil
    /\ sem PolicyB.number A nil /\ sem PolicyB.number B nil
    /\ sem PolicyB.number C nil.
Proof.
  unfold PolicyB.pattern1, ws. cbn [cat lit sem]. intros H. break.
  repeat match goal with
         | H : sem PolicyB.number _ _ |- _ =>
             let E := fresh in
             destruct (sem_number_inv _ _ H) as [E _]; apply sem_number_nil in H;
             revert H
         end.
  intros. subst. cbn [app]. eauto 10.
Qed.

Lemma sem_pattern2_inv w gs :
  sem PolicyB.pattern2 w gs ->
  exists A C,
    gs = (2%nat, C) :: (1%nat, A) :: nil
    /\ sem PolicyB.number A nil /\ sem PolicyB.number C nil.
Proof.
  unfold PolicyB.pattern2, ws. cbn [cat lit sem]. intros H. break.
  repeat match goal with
         | H : sem PolicyB.number _ _ |- _ =>
             let E := fresh in
             destruct (sem_number_inv _ _ H) as [E _]; apply sem_number_nil in H;
             revert H
         end.
  intros. subst. cbn [app]. eauto 10.
Qed.

Lemma lstrip_spaces l x : all is_space l = true -> lstrip (l +:+ x) = lstrip x.
Proof.
  induction l as [|c l IH]; intros H; [reflexivity|].
  cbn [all] in H. apply andb_prop in H. destruct H as [Hc Hl].
  rewrite append_cons. cbn [lstrip]. rewrite Hc. now apply IH.
Qed.

Lemma rstrip_spaces r : all is_space r = true -> rstrip r = EmptyString.
Proof.
  induction r as [|c r IH]; intros H; [reflexivity|].
  cbn [all] in H. apply andb_prop in H. destruct H as [Hc Hr].
  cbn [rstrip]. now rewrite (IH Hr), Hc.
Qed.

Lemma rstrip_keep c x :
  is_space c = false -> rstrip (String c x) = String c (rstrip x).
Proof.
  intros Hc. cbn [rstrip]. rewrite Hc. now destruct (rstrip x).
Qed.

Lemma lstrip_decomp s : exists l, s = l +:+ lstrip s /\ all is_space l = true.
Proof.
  induction s as [|c s (l & Hs & Hl)].
  - exists EmptyString. auto.
  - cbn [lstrip]. destruct (is_space c) eqn:Hc.
    + exists (String c l). rewrite append_cons, <- Hs. cbn [all]. now rewrite Hc, Hl.
    + exists EmptyString. auto.
Qed.

Lemma rstrip_decomp s : exists r, s = rstrip s +:+ r /\ all is_space r = true.
Proof.
  induction s as [|c s (r & Hs & Hr)].
  - exists EmptyString. auto.
  - cbn [rstrip]. destruct (rstrip s) as [|x t] eqn:E.
    + rewrite append_nil_l in Hs. subst s. destruct (is_space c) eqn:Hc.
      * exists (String c r). cbn [all]. now rewrite Hc, Hr.
      * exists r. auto.
    + exists r. rewrite append_cons, <- Hs. auto.
Qed.

Lemma upper_char_N c : upper_char c = "N"%char -> c = "N"%char \/ c = "n"%char.
Proof.
  destruct c as [[] [] [] [] [] [] [] []]; vm_compute; intros H;
    first [discriminate H | now left | now right].
Qed.

Lemma upper_char_A c : upper_char c = "A"%char -> c = "A"%char \/ c = "a"%char.
Proof.
  destruct c as [[] [] [] [] [] [] [] []]; vm_compute; intros H;
    first [discriminate H | now left | now right].
Qed.

(** The test of line 115 is the trimmed, case-blind comparison with NA. *)
Lemma NA_test duree :
  String.eqb (upper (strip duree)) "NA" = true <-> is_NA duree.
Proof.
  split.
  - intros H. apply String.eqb_eq in H. unfold strip in H.
    destruct (lstrip_decomp duree) as (l & Hs & Hl).
    destruct (rstrip_decomp (lstrip duree)) as (r & Ht & Hr).
    destruct (rstrip (lstrip duree)) as [|n [|a [|x t]]]; try discriminate H.
    cbn [upper] in H. injection H as Hn Ha.
    exists l, n, a, r. rewrite Hs at 1. rewrite Ht.
    repeat split; auto using upper_char_N, upper_char_A.
  - intros (l & n & a & r & -> & Hl & Hr & Hn & Ha). apply String.eqb_eq.
    assert (Hsn : is_space n = false) by (destruct Hn as [-> | ->]; reflexivity).
    assert (Hsa : is_space a = false) by (destruct Ha as [-> | ->]; reflexivity).
    unfold strip. rewrite (lstrip_spaces l _ Hl). cbn [lstrip]. rewrite Hsn.
    rewrite (rstrip_keep n _ Hsn), (rstrip_keep a _ Hsa), (rstrip_spaces r Hr).
    destruct Hn as [-> | ->], Ha as [-> | ->]; reflexivity.
Qed.

Lemma solveB_inv data d p :
  PolicyB.solve data d = Success p ->
  exists s,
    PolicyB.dilution_pratique data = Text s
    /\ PolicyB.parse_dilution s = Success (PolicyB.max_val p, PolicyB.vol_ref p)
    /\ PolicyB.nb_infusion p = int (24 / PolicyB.stability_hours p)
    /\ PolicyB.dosage_infusion p = (d / inject_Z (PolicyB.nb_infusion p))%Q
    /\ PolicyB.volume_dilution p
       = (PolicyB.dosage_infusion p * PolicyB.vol_ref p / PolicyB.max_val p)%Q
    /\ PolicyB.volume_dilution_arrondi p
       = (round (PolicyB.volume_dilution p / 10) * 10)%Z
    /\ PolicyB.materiel p
       = PolicyB.choose_materiel (PolicyB.duree_administration data)
           (PolicyB.volume_dilution_arrondi p).
Proof.
  unfold PolicyB.solve.
  destruct (catch _ PolicyB.handler_stabilite) as [sh| |]; cbn [obind]; try discriminate.
  destruct (div 24 sh) as [q|] eqn:E1; cbn [bare catch obind]; try discriminate.
  apply div_ok in E1. destruct E1 as [_ ->].
  destruct (div d _) as [dg|] eqn:E2; cbn [bare catch obind]; try discriminate.
  apply div_ok in E2. destruct E2 as [_ ->].
  destruct (PolicyB.dilution_pratique data) as [|s|];
    cbn [PolicyB.as_str bare catch obind]; try discriminate.
  destruct (PolicyB.parse_dilution s) as [[mv vr]| |] eqn:E3; cbn [obind fst snd];
    try discriminate.
  match goal with
  | |- context [catch (div ?x mv) _] => destruct (div x mv) as [vd|e] eqn:E4
  end; cbn [catch obind].
  - apply div_ok in E4. destruct E4 as [_ ->].
    intros H. injection H as <-. cbn. exists s. repeat split; auto.
  - destruct (PolicyB.handler_dilution e); discriminate.
Qed.

(** ** Loading *)

Lemma load_fold_lookup {V} (G : string -> V) (key : PolicyA.row -> string)
  (l : list PolicyA.row) : forall (m0 : gmap string V) (k : string),
  fold_left (fun acc r => <[key r := G (key r)]> acc) l m0 !! k
  = if existsb (fun r => String.eqb (key r) k) l then Some (G k) else m0 !! k.
Proof.
  induction l as [|r l IH]; intros m0 k; cbn [fold_left existsb]; [reflexivity|].
  rewrite IH. destruct (existsb _ l); cbn [orb].
  - now rewrite orb_true_r.
  - rewrite orb_false_r. destruct (String.eqb (key r) k) eqn:E.
    + apply String.eqb_eq in E. subst k. apply lookup_insert_eq.
    + apply String.eqb_neq in E. now rewrite lookup_insert_ne.
Qed.

(** What [load_data] of Policy A holds for a molecule: the rows of the
    molecule that pass the filter, in file order. *)
Lemma loadA_lookup (df : list PolicyA.row) (k : string) :
  PolicyA.load_data df !! k
  = if existsb (fun r => String.eqb (PolicyA.Molecule r) k) df
    then Some (map PolicyA.variant_of_row
                 (List.filter PolicyA.keep (PolicyA.group_rows k df)))
    else None.
Proof.
  unfold PolicyA.load_data.
  rewrite (load_fold_lookup
             (fun k => map PolicyA.variant_of_row
                         (List.filter PolicyA.keep (PolicyA.group_rows k df)))
             PolicyA.Molecule df ∅ k).
  now rewrite lookup_empty.
Qed.

Lemma blank_cell_not_kept (r : PolicyA.row) :
  PolicyA.Concentration r = NaN
  \/ all is_space (str (PolicyA.Concentration r)) = true ->
  PolicyA.keep r = false.
Proof.
  unfold PolicyA.keep. intros [-> | H]; [reflexivity|].
  unfold strip.
  destruct (lstrip_decomp (str (PolicyA.Concentration r))) as (l & Hs & Hl).
  rewrite Hs in H. rewrite all_append in H. apply andb_prop in H.
  destruct H as [_ H]. rewrite (rstrip_spaces _ H). cbn.
  now rewrite andb_false_r.
Qed.

(** The part of C5 that holds, for Policy A: a row is among the loaded
    variants of its molecule exactly when its concentration is neither
    missing nor blank. *)
Lemma loadA_keeps_exactly (df : list PolicyA.row) (k : string) (v : PolicyA.variant) :
  (exists vs, PolicyA.load_data df !! k = Some vs /\ In v vs)
  <-> exists r, In r df /\ PolicyA.Molecule r = k /\ PolicyA.keep r = true
                /\ v = PolicyA.variant_of_row r.
Proof.
  rewrite loadA_lookup. split.
  - intros (vs & H & Hv). destruct (existsb _ df); [|discriminate].
    injection H as <-. apply in_map_iff in Hv. destruct Hv as (r & <- & Hr).
    apply filter_In in Hr. destruct Hr as [Hr Hk].
    unfold PolicyA.group_rows in Hr. apply filter_In in Hr. destruct Hr as [Hr Hm].
    apply String.eqb_eq in Hm. exists r. auto.
  - intros (r & Hr & Hm & Hk & ->).
    assert (E : existsb (fun r => String.eqb (PolicyA.Molecule r) k) df = true).
    { apply existsb_exists. exists r. split; [exact Hr|]. now apply String.eqb_eq. }
    rewrite E. eexists. split; [reflexivity|]. apply in_map.
    apply filter_In. split; [|exact Hk]. unfold PolicyA.group_rows.
    apply filter_In. split; [exact Hr|]. now apply String.eqb_eq.
Qed.

(** Policy B skips a row whose dilution cell is blank text. *)
Lemma blank_text_skipped (r : PolicyB.row) (s : string) :
  PolicyB.Dilution_pratique r = Text s -> all is_space s = true ->
  PolicyB.skip r = true.
Proof.
  intros E H. unfold PolicyB.skip. rewrite E. cbn [str isna orb]. unfold strip.
  destruct (lstrip_decomp s) as (l & Hs & Hl).
  rewrite Hs in H. rewrite all_append in H. apply andb_prop in H.
  destruct H as [_ H]. now rewrite (rstrip_spaces _ H).
Qed.

(** The divisors of 24. *)
Lemma divisors_of_24 (n : Z) :
  (1 <= n)%Z -> (24 mod n = 0)%Z ->
  (n = 1 \/ n = 2 \/ n = 3 \/ n = 4 \/ n = 6 \/ n = 8 \/ n = 12 \/ n = 24)%Z.
Proof.
  intros Hn Hmod.
  assert (Hle : (n <= 24)%Z).
  { apply Z.mod_divide in Hmod; [|lia]. apply Z.divide_pos_le in Hmod; lia. }
  assert (C : (n = 1 \/ n = 2 \/ n = 3 \/ n = 4 \/ n = 5 \/ n = 6 \/ n = 7
               \/ n = 8 \/ n = 9 \/ n = 10 \/ n = 11 \/ n = 12 \/ n = 13
               \/ n = 14 \/ n = 15 \/ n = 16 \/ n = 17 \/ n = 18 \/ n = 19
               \/ n = 20 \/ n = 21 \/ n = 22 \/ n = 23 \/ n = 24)%Z) by lia.
  repeat (destruct C as [E|C];
          [subst n; first [discriminate Hmod | tauto]|]).
  subst n. tauto.
Qed.

(** * The properties of the specification *)

Lemma min_divides (k : Z) : (1 <= k <= 24)%Z -> (24 mod (24 / k) = 0)%Z.
Proof.
  intros H.
  assert (C : (k = 1 \/ k = 2 \/ k = 3 \/ k = 4 \/ k = 5 \/ k = 6 \/ k = 7
               \/ k = 8 \/ k = 9 \/ k = 10 \/ k = 11 \/ k = 12
               \/ 13 <= k <= 24)%Z) by lia.
  repeat (destruct C as [E|C]; [subst k; reflexivity|]).
  assert (Hq : (24 / k = 1)%Z) by (symmetry; apply Z.div_unique with (r := (24 - k)%Z); lia).
  now rewrite Hq.
Qed.

(** The part of C2 that holds: in every branch the number of infusions
    divides 24, and a number of infusions above the minimum respects the
    stability. *)
Lemma nb_infusion_divides_24 data d p :
  solve data d = Ok p ->
  (24 mod nb_infusion p = 0)%Z
  /\ (nb_infusion p <> min_infusions p ->
      exists s, parse_stability data = Ok s
                /\ 24 / inject_Z (nb_infusion p) <= s).
Proof.
  intros H. apply solve_inv in H.
  destruct H as (s & Hs & Hm & Hc & _).
  destruct (reached _ _ _ _ _ Hs Hc) as (Hs0 & Hmn & k & Hk & Hsk).
  assert (Hdiv : (24 mod int (24 / s) = 0)%Z).
  { rewrite Hsk, int_hours by lia. now apply min_divides. }
  destruct (choose_cases s (max_val p) d Hs0 Hmn) as [[_ E]|[(_ & n & Hn & E)|(_ & _ & E)]];
    rewrite E in Hc.
  - injection Hc as <- <- _ _. split; [exact Hdiv|congruence].
  - injection Hc as _ <- _ _. unfold first_match in Hn.
    apply first_from_some in Hn. destruct Hn as (Hn & _).
    apply constraint_true in Hn. split; [apply Hn|]. intros _. exists s. split; [exact Hs|apply Hn].
  - destruct (Qeq_bool (max_val p) 0); [discriminate|].
    injection Hc as <- <- _ _. split; [exact Hdiv|congruence].
Qed.

(** C2, at the input where the code departs from it: a stability of 7 h
    gives three infusions a day, one every 8 h. *)
Theorem C2_minimum_branch_exceeds_stability :
  exists p,
    calculate (load_data (sample_row (Text "7h") (Text "100 mg/mL") :: nil))
      "Cefazoline" (sample_variant "7h" "100 mg/mL") 1 = Success p
    /\ parse_stability (sample_variant "7h" "100 mg/mL") = Ok 7
    /\ nb_infusion p = 3%Z /\ material p = PSE
    /\ hours_between p == 8
    /\ ~ 24 / inject_Z (nb_infusion p) <= 7.
Proof.
  eexists. split; [vm_compute; reflexivity|].
  repeat split; vm_compute; congruence.
Qed.

(** ** The binary64 embedding of Policy A *)

Section Binary64.

Import PyStr PyNum PyFloat Re PolicyA64.
Local Open Scope Z_scope.

(** The arithmetic on a few doubles: 0.1, a tie that goes to the even
    mantissa, an int too large for a float, and the conversions to int. *)
Example binary64_samples :
  float "0.1" = Ok (SpecFloat.S754_finite false 7205759403792794 (-56))
  /\ of_int (2 ^ 53 + 1) = Ok (SpecFloat.S754_finite false 4503599627370496 1)
  /\ of_int (2 ^ 1024) = Raise OverflowError
  /\ div (num 24) (num 0) = Raise ZeroDivisionError
  /\ (let* q := div (num 24) (num 7) in int q) = Ok 3
  /\ (let* x := float "2.5" in round x) = Ok 2
  /\ (let* x := float "7.5" in round x) = Ok 8
  /\ (let* x := float "550.0000000000001" in ceil x) = Ok 551
  /\ (let* x := truediv 551 10 in ceil x) = Ok 56
  /\ ceil SpecFloat.S754_nan = Raise ValueError
  /\ round (SpecFloat.S754_infinity false) = Raise OverflowError.
Proof. repeat split; vm_compute; reflexivity. Qed.

(** The two embeddings agree at the inputs at which C2, C4, C5 and C6
    are evaluated on exact rationals: the stability of 7 h, the divisions
    by zero, the missing dilution cell and the scenario of Policy B. *)
Example binary64_at_the_evaluated_inputs :
  (exists p,
      run (PolicyA.load_data (sample_row (Text "7h") (Text "100 mg/mL") :: nil))
        (Some "Cefazoline") NaN (num 1) = Success p
      /\ nb_infusion p = 3 /\ hours_shown p = 8
      /\ material p = PolicyA.PSE /\ le (hours_between p) (num 7) = false)
  /\ run (PolicyA.load_data (sample_row (Text "0h") (Text "4 mg/mL") :: nil))
       (Some "Cefazoline") NaN (num 1) = Uncaught ZeroDivisionError
  /\ run (PolicyA.load_data (sample_row (Text "48h") (Text "4 mg/mL") :: nil))
       (Some "Cefazoline") NaN (num 1) = Uncaught ZeroDivisionError
  /\ run (PolicyA.load_data (sample_row (Text "8h") (Text "0 mg/mL") :: nil))
       (Some "Cefazoline") NaN (num 1) = Uncaught ZeroDivisionError
  /\ PolicyB64.calculer
       (PolicyB.load_data
          (sample_ligne (Int 0) (Text "1 g dans 100 ml") (Text "30 min") :: nil))
       (Some "Cefazoline") (num 1) = Uncaught ZeroDivisionError
  /\ PolicyB64.calculer
       (PolicyB.load_data
          (sample_ligne (Int 48) (Text "1 g dans 100 ml") (Text "30 min") :: nil))
       (Some "Cefazoline") (num 1) = Uncaught ZeroDivisionError
  /\ PolicyB64.calculer
       (PolicyB.load_data
          (sample_ligne (Int 24) (Text "0 g dans 100 ml") (Text "30 min") :: nil))
       (Some "Cefazoline") (num 1) = Uncaught ZeroDivisionError
  /\ PolicyB64.calculer
       (PolicyB.load_data (sample_ligne (Int 24) NaN (Text "30 min") :: nil))
       (Some "Cefazoline") (num 1) = Uncaught TypeError
  /\ (exists d p,
        float "1.5" = Ok d
        /\ PolicyB64.calculer
             (PolicyB.load_data
                (sample_ligne (Int 24) (Text one_to_two_g_in_100_ml)
                   (Text "30 min") :: nil))
             (Some "Cefazoline") d = Success p
        /\ PolicyB64.nb_infusion p = 1
        /\ PolicyB64.max_val p = num 2 /\ PolicyB64.vol_ref p = num 100
        /\ PolicyB64.volume_dilution p = num 75
        /\ PolicyB64.volume_dilution_arrondi p = 80
        /\ PolicyB64.materiel p = PolicyB.pompe).
Proof.
  split; [eexists; split; [vm_compute; reflexivity|repeat split]|].
  repeat (split; [vm_compute; reflexivity|]).
  eexists. eexists. split; [reflexivity|].
  split; [vm_compute; reflexivity|]. repeat split.
Qed.

(** On a divisor of 24 no operation of the loop or of the end of the
    [try] block raises, and [24 / n] is a whole number of hours. *)
Lemma divisor_ops (n : Z) :
  1 <= n -> 24 mod n = 0 ->
  truediv 24 n = Ok (nearest 24 (Z.to_pos n))
  /\ of_int n = Ok (num n)
  /\ is_zero (num n) = false
  /\ int (nearest 24 (Z.to_pos n)) = Ok (24 / n).
Proof.
  intros Hn Hmod.
  destruct (divisors_of_24 n Hn Hmod)
    as [->|[->|[->|[->|[->|[->|[->| ->]]]]]]]; repeat split; reflexivity.
Qed.


Lemma per_infusion_inv (d : float64) (n : Z) (x : float64) :
  per_infusion d n = Ok x -> x = quotient d (num n) /\ is_zero (num n) = false.
Proof.
  unfold per_infusion, of_int, num.
  destruct (is_inf (nearest n 1)); cbn [bind]; [discriminate|].
  unfold div. destruct (is_zero (nearest n 1)); [discriminate|].
  intros [= <-]. auto.
Qed.

Lemma split_loop_filter64 s m d ns : forall acc,
  List.Forall (fun n => 1 <= n) ns ->
  split_loop s m d ns acc
  = Ok (acc ++ List.filter (constraint64 s m d) ns)%list.
Proof.
  induction ns as [|n ns IH]; intros acc Hns; cbn [split_loop List.filter].
  - now rewrite app_nil_r.
  - inversion Hns as [|? ? Hn Hns']; subst.
    unfold mod_. rewrite (proj2 (Z.eqb_neq n 0)) by lia. cbn [bind].
    unfold constraint64 at 1.
    destruct (24 mod n =? 0) eqn:E; cbn [andb]; [|now apply IH].
    apply Z.eqb_eq in E.
    destruct (divisor_ops n Hn E) as (Ht & Hof & Hz & _).
    rewrite Ht. cbn [bind].
    destruct (le (nearest 24 (Z.to_pos n)) s); cbn [andb]; [|now apply IH].
    rewrite Hof. cbn [bind]. unfold div. rewrite Hz. cbn [bind].
    destruct (le _ m); [|now apply IH].
    rewrite IH by assumption. now rewrite <- app_assoc.
Qed.

Lemma search_range (mn : Z) :
  List.Forall (fun n => 1 <= n) (range (mn + 1) (mn * 2 + 1)).
Proof.
  apply List.Forall_forall. intros x Hx. apply in_range in Hx. lia.
Qed.

Lemma first_match64_filter s m d mn :
  first_match64 s m d mn
  = hd_error (List.filter (constraint64 s m d) (range (mn + 1) (mn * 2 + 1))).
Proof.
  unfold first_match64. rewrite first_from_filter.
  destruct (Z_le_gt_dec 0 mn) as [H|H].
  - do 3 f_equal. lia.
  - rewrite !range_nil by lia. reflexivity.
Qed.

(** The three branches of [choose]. *)
Lemma choose_branches s m d mn dpm :
  minimum s = Ok mn -> per_infusion d mn = Ok dpm ->
  choose s m d
  = if le (in_50ml dpm) m then Ok (mn, mn, 50, PolicyA.PSE)
    else match first_match64 s m d mn with
         | Some n => Ok (mn, n, 50, PolicyA.PSE)
         | None =>
             let* v := fallback m d mn in Ok (mn, mn, v, PolicyA.pompe)
         end.
Proof.
  intros Hmn Hdpm. unfold choose. rewrite Hmn. cbn [bind]. rewrite Hdpm.
  cbn [bind]. destruct (le (in_50ml dpm) m); [reflexivity|].
  rewrite (split_loop_filter64 s m d _ nil (search_range mn)).
  cbn [bind app]. rewrite first_match64_filter.
  destruct (List.filter _ _) as [|n ns] eqn:F; cbn [hd_error].
  - reflexivity.
  - apply (filter_range_sorted _ _ _ _ _ _ eq_refl) in F.
    now rewrite (min_list_head n ns (proj2 F)).
Qed.

Lemma choose_inv s m d r :
  choose s m d = Ok r ->
  exists mn dpm, minimum s = Ok mn /\ per_infusion d mn = Ok dpm.
Proof.
  unfold choose.
  destruct (minimum s) as [mn|e] eqn:E1; cbn [bind]; [|discriminate].
  destruct (per_infusion d mn) as [dpm|e] eqn:E2; cbn [bind]; [|discriminate].
  intros _. exists mn, dpm. split; [reflexivity|exact E2].
Qed.

Lemma solve_inv64 data d p :
  solve data d = Ok p ->
  exists s,
    parse_stability data = Ok s
    /\ parse_concentration data = Ok (max_val p)
    /\ choose s (max_val p) d
       = Ok (min_infusions p, nb_infusion p, volume_dilution p, material p)
    /\ truediv 24 (nb_infusion p) = Ok (hours_between p)
    /\ int (hours_between p) = Ok (hours_shown p)
    /\ per_infusion d (nb_infusion p) = Ok (dosage_infusion p)
    /\ exists volume_float,
         of_int (volume_dilution p) = Ok volume_float
         /\ div (mul (dosage_infusion p) (num 1000)) volume_float
            = Ok (concentration_shown p).
Proof.
  unfold solve.
  destruct (parse_stability data) as [s|e] eqn:Es; cbn [bind]; [|discriminate].
  destruct (parse_concentration data) as [m|e] eqn:Em; cbn [bind]; [|discriminate].
  destruct (choose s m d) as [[[[mn nb] vol] mat]|e] eqn:Ech; cbn [bind];
    [|discriminate].
  destruct (truediv 24 nb) as [h|e] eqn:Eh; cbn [bind]; [|discriminate].
  destruct (int h) as [hs|e] eqn:Ei; cbn [bind]; [|discriminate].
  destruct (per_infusion d nb) as [dg|e] eqn:Ed; cbn [bind]; [|discriminate].
  destruct (of_int vol) as [fv|e] eqn:Ev; cbn [bind]; [|discriminate].
  destruct (div _ fv) as [c|e] eqn:Ec; cbn [bind]; [|discriminate].
  intros [= <-]. cbn. exists s.
  split; [reflexivity|]. split; [reflexivity|]. split; [exact Ech|].
  split; [exact Eh|]. split; [exact Ei|]. split; [exact Ed|].
  exists fv. split; [exact Ev|exact Ec].
Qed.




(** C10, at an input where the code departs from it: a stability of
    24 h, a maximum of 7.4 mg/mL and 4.07 g a day.  The fallback computes
    550 mL, [math.ceil] of a quotient that rounding has brought down to
    550.0, and the plan comes out with 4.07 * 1000 / 550, which the
    message shows as 7.400000000000001 mg/mL, above the maximum that was
    read; the doubles themselves are in that order too, not only their
    rounded quotient.  The branch that, by its comments, rounds up to
    keep the limit is the only one that does not test the concentration
    it ends with. *)
Theorem C10_pump_plan_above_the_maximum :
  exists d p,
    float "4.07" = Ok d
    /\ run (PolicyA.load_data
              (sample_row (Text "24h") (Text "7.4 mg/mL") :: nil))
         (Some "Cefazoline") NaN d = Success p
    /\ parse_concentration (sample_variant "24h" "7.4 mg/mL") = Ok (max_val p)
    /\ material p = PolicyA.pompe /\ nb_infusion p = 1
    /\ volume_dilution p = 550
    /\ concentration_shown p
       = quotient (mul (dosage_infusion p) (num 1000)) (num 550)
    /\ le (concentration_shown p) (max_val p) = false
    /\ le (max_val p) (concentration_shown p) = true
    /\ (exact (max_val p) < exact (dosage_infusion p) * 1000 / 550)%Q.
Proof.
  eexists. eexists. split; [reflexivity|].
  split; [vm_compute; reflexivity|].
  repeat split; vm_compute; reflexivity.
Qed.

(** C1, at inputs where the code departs from it.  With 24 h, 7.4 mg/mL
    and 4.07 g a day neither one nor two infusions pass the conditions,
    and the code returns a volumetric pump with 550 mL, a volume that does
    not keep the dose per infusion within the maximum, neither as the
    interpreter computes the concentration nor on the doubles themselves
    (560 mL is the first multiple of 10 mL that does).  With 1 h,
    3.368 mg/mL and 4.0416 g a day no number from 24 to 48 passes, and the
    pump comes out with 50 mL, the very volume the test of the minimum has
    just refused.  With 8 h, 3.5 mg/mL and 1.05 g a day six infusions pass
    the three conditions on paper, with exactly 3.5 mg/mL, but not as the
    interpreter computes them, and the code returns a pump with 110 mL
    where the claim has a 50 mL syringe. *)
Theorem C1_fallback_volume_not_within_the_cap :
  (exists d s m p,
      float "4.07" = Ok d
      /\ parse_stability (sample_variant "24h" "7.4 mg/mL") = Ok s
      /\ parse_concentration (sample_variant "24h" "7.4 mg/mL") = Ok m
      /\ minimum s = Ok 1
      /\ (forall n, 1 <= n <= 2 * 1 -> constraint64 s m d n = false)
      /\ solve (sample_variant "24h" "7.4 mg/mL") d = Ok p
      /\ material p = PolicyA.pompe /\ volume_dilution p = 550
      /\ within_cap (dosage_infusion p) m 550 = false
      /\ (exact m < exact (dosage_infusion p) * 1000 / 550)%Q
      /\ within_cap (dosage_infusion p) m 560 = true)
  /\ (exists d s m p,
        float "4.0416" = Ok d
        /\ parse_stability (sample_variant "1h" "3.368 mg/mL") = Ok s
        /\ parse_concentration (sample_variant "1h" "3.368 mg/mL") = Ok m
        /\ minimum s = Ok 24
        /\ (forall n, 24 <= n <= 2 * 24 -> constraint64 s m d n = false)
        /\ solve (sample_variant "1h" "3.368 mg/mL") d = Ok p
        /\ material p = PolicyA.pompe /\ volume_dilution p = 50
        /\ within_cap (dosage_infusion p) m 50 = false
        /\ within_cap (dosage_infusion p) m 60 = true)
  /\ (exists d p,
        float "1.05" = Ok d
        /\ PolicyA.parse_stability (sample_variant "8h" "3.5 mg/mL") = Ok 8%Q
        /\ PolicyA.parse_concentration (sample_variant "8h" "3.5 mg/mL")
           = Ok 3.5%Q
        /\ constraint 8 3.5 1.05 6 = true
        /\ (conc50 1.05 6 == 3.5)%Q
        /\ solve (sample_variant "8h" "3.5 mg/mL") d = Ok p
        /\ min_infusions p = 3 /\ nb_infusion p = 3
        /\ material p = PolicyA.pompe /\ volume_dilution p = 110).
Proof.
  split; [|split].
  - eexists. eexists. eexists. eexists.
    split; [reflexivity|]. split; [reflexivity|]. split; [reflexivity|].
    split; [reflexivity|]. split.
    + intros n Hn. assert (C : n = 1 \/ n = 2) by lia.
      destruct C as [->| ->]; vm_compute; reflexivity.
    + split; [vm_compute; reflexivity|]. repeat split; vm_compute; reflexivity.
  - eexists. eexists. eexists. eexists.
    split; [reflexivity|]. split; [reflexivity|]. split; [reflexivity|].
    split; [reflexivity|]. split.
    + intros n Hn. unfold constraint64.
      destruct (24 mod n =? 0) eqn:E; [|reflexivity].
      apply Z.eqb_eq in E.
      destruct (divisors_of_24 n ltac:(lia) E)
        as [->|[->|[->|[->|[->|[->|[->| ->]]]]]]]; try lia.
      vm_compute. reflexivity.
    + split; [vm_compute; reflexivity|]. repeat split; vm_compute; reflexivity.
  - eexists. eexists. split; [reflexivity|].
    split; [vm_compute; reflexivity|]. split; [vm_compute; reflexivity|].
    split; [vm_compute; reflexivity|]. split; [vm_compute; reflexivity|].
    split; [vm_compute; reflexivity|]. repeat split; reflexivity.
Qed.




Lemma fallback_multiple m d n v : fallback m d n = Ok v -> v mod 10 = 0.
Proof.
  unfold fallback.
  destruct (per_infusion d n) as [x|e]; cbn [bind]; [|discriminate].
  destruct (div _ m) as [y|e]; cbn [bind]; [|discriminate].
  destruct (ceil y) as [vd|e]; cbn [bind]; [|discriminate].
  destruct (truediv vd 10) as [w|e]; cbn [bind]; [|discriminate].
  destruct (ceil w) as [c|e]; cbn [bind]; [|discriminate].
  intros [= <-]. apply Z.mod_mul. lia.
Qed.

(** X2: the shape of a plan of Policy A, as the interpreter computes it.
    A syringe plan has 50 mL and the concentration its message shows is
    within the maximum that was read; a pump plan keeps the minimum
    number of infusions and has a multiple of 10 mL; and a plan with more
    infusions than the minimum, the one the note on splitting goes with,
    is a syringe plan whose number of infusions divides 24, is at most
    twice the minimum and keeps the interval within the stability. *)
Theorem planA_material_and_volume data d p :
  solve data d = Ok p ->
  (material p = PolicyA.PSE ->
   volume_dilution p = 50
   /\ le (concentration_shown p) (max_val p) = true)
  /\ (material p = PolicyA.pompe ->
      nb_infusion p = min_infusions p /\ volume_dilution p mod 10 = 0)
  /\ (min_infusions p < nb_infusion p ->
      material p = PolicyA.PSE /\ 24 mod nb_infusion p = 0
      /\ nb_infusion p <= 2 * min_infusions p
      /\ exists s, parse_stability data = Ok s
                   /\ le (hours_between p) s = true).
Proof.
  intros H. apply solve_inv64 in H.
  destruct H as (s & Hs & Hm & Hc & Hh & _ & Hd & fv & Hfv & Hcs).
  destruct (choose_inv _ _ _ _ Hc) as (mn & dpm & Hmn & Hdpm).
  rewrite (choose_branches s (max_val p) d mn dpm Hmn Hdpm) in Hc.
  destruct (le (in_50ml dpm) (max_val p)) eqn:Hfit.
  - injection Hc as Hmin Hnb Hvol Hmat.
    rewrite <- Hnb, Hdpm in Hd. injection Hd as Hd.
    rewrite <- Hvol in Hfv. injection Hfv as <-.
    injection Hcs as Hcs. rewrite <- Hcs, <- Hd.
    rewrite <- Hmin, <- Hnb, <- Hvol, <- Hmat.
    split; [intros _; split; [reflexivity|exact Hfit]|].
    split; [discriminate|lia].
  - destruct (first_match64 s (max_val p) d mn) as [n|] eqn:Hn.
    + injection Hc as Hmin Hnb Hvol Hmat.
      unfold first_match64 in Hn. apply first_from_some in Hn.
      destruct Hn as (Hcn & Hr & _). unfold constraint64 in Hcn.
      apply andb_prop in Hcn. destruct Hcn as [Hcn Hconc].
      apply andb_prop in Hcn. destruct Hcn as [Hmod Hint].
      apply Z.eqb_eq in Hmod.
      destruct (divisor_ops n ltac:(lia) Hmod) as (Ht & _).
      rewrite <- Hnb, Ht in Hh. injection Hh as Hh.
      rewrite <- Hnb in Hd. apply per_infusion_inv in Hd. destruct Hd as [Hd _].
      rewrite <- Hvol in Hfv. injection Hfv as <-.
      injection Hcs as Hcs. rewrite <- Hcs, Hd, <- Hh.
      rewrite <- Hmin, <- Hnb, <- Hvol, <- Hmat.
      split; [intros _; split; [reflexivity|exact Hconc]|].
      split; [discriminate|]. intros _.
      split; [reflexivity|]. split; [exact Hmod|]. split; [lia|].
      exists s. split; [exact Hs|exact Hint].
    + destruct (fallback (max_val p) d mn) as [v|e] eqn:Hf; [|discriminate].
      injection Hc as Hmin Hnb Hvol Hmat.
      rewrite <- Hmin, <- Hnb, <- Hvol, <- Hmat.
      split; [discriminate|]. split; [|lia]. intros _.
      split; [reflexivity|]. exact (fallback_multiple _ _ _ _ Hf).
Qed.

Lemma planA_material_and_volume_witness :
  exists d p,
    float "1.05" = Ok d
    /\ solve (sample_variant "12h" "7 mg/mL") d = Ok p
    /\ min_infusions p = 2 /\ nb_infusion p = 4
    /\ material p = PolicyA.PSE /\ 24 mod nb_infusion p = 0
    /\ nb_infusion p <= 2 * min_infusions p
    /\ exists s, parse_stability (sample_variant "12h" "7 mg/mL") = Ok s
                 /\ le (hours_between p) s = true.
Proof.
  eexists. eexists. split; [reflexivity|].
  split; [vm_compute; reflexivity|]. split; [reflexivity|].
  split; [reflexivity|].
  apply (planA_material_and_volume (sample_variant "12h" "7 mg/mL")
           (nearest 105 100));
    [vm_compute; reflexivity|vm_compute; reflexivity].
Defined.

End Binary64.

Import PolicyB.



Example dilution_with_comma :
  parse_dilution "1,5 g dans 100 ml" = Success (1.5, 100)%Q.
Proof. reflexivity. Qed.

Example dilution_range_takes_upper :
  parse_dilution one_to_two_g_in_100_ml = Success (2, 100)%Q.
Proof. reflexivity. Qed.

Example dilution_unrecognised :
  parse_dilution "1 g / 100 ml" = Reported DilutionNotRecognised.
Proof. reflexivity. Qed.

(** C8: the material of a plan of Policy B.  The gravity line when the
    administration duration, trimmed and whatever its case, is NA;
    otherwise the syringe pump up to 50 mL of rounded volume and the
    volumetric pump above. *)
Theorem C8_material_selection data d p :
  solve data d = Success p ->
  (is_NA (duree_administration data) -> materiel p = IVL)
  /\ (~ is_NA (duree_administration data) ->
      ((volume_dilution_arrondi p <= 50)%Z -> materiel p = PSE)
      /\ ((50 < volume_dilution_arrondi p)%Z -> materiel p = pompe)).
Proof.
  intros H. apply solveB_inv in H. destruct H as (s & _ & _ & _ & _ & _ & _ & Hm).
  rewrite Hm. unfold choose_materiel. split.
  - intros Hna. apply NA_test in Hna. now rewrite Hna.
  - intros Hna.
    destruct (String.eqb _ "NA") eqn:E; [apply NA_test in E; contradiction|].
    split; intros Hv.
    + apply Z.leb_le in Hv. now rewrite Hv.
    + apply Z.leb_gt in Hv. now rewrite Hv.
Qed.

Lemma C8_witness :
  (exists p, solve (sample_entry "24h" (Text one_to_two_g_in_100_ml) " na ") 1.5
             = Success p /\ materiel p = IVL)
  /\ (exists p, solve (sample_entry "8h" (Text "12,5 g dans 250 ml") "30 min") 6
                = Success p /\ volume_dilution_arrondi p = 40%Z
                /\ materiel p = PSE).
Proof.
  split.
  - eexists. split; [vm_compute; reflexivity|].
    eapply (C8_material_selection
              (sample_entry "24h" (Text one_to_two_g_in_100_ml) " na ") 1.5);
      [vm_compute; reflexivity|].
    exists " ", "n"%char, "a"%char, " ". repeat split; auto.
  - eexists. split; [vm_compute; reflexivity|].
    split; [reflexivity|].
    eapply (C8_material_selection
              (sample_entry "8h" (Text "12,5 g dans 250 ml") "30 min") 6);
      [vm_compute; reflexivity| |vm_compute; congruence].
    intros Hna. apply NA_test in Hna. discriminate Hna.
Defined.

(** C6: the scenario of Policy B.  Stability 24h, dilution
    "1 à 2 g dans 100 ml", a duration that is not NA, 1.5 g a day: one
    infusion of 1.5 g, maximum 2 g in a reference volume of 100 mL, 75 mL
    rounded to 80 mL, volumetric pump. *)
Theorem C6_policy_B_scenario (duree : string) (solute : cell) :
  ~ is_NA duree ->
  exists p,
    solve {| stabilite := "24h";
             dilution_pratique := Text one_to_two_g_in_100_ml;
             solute_de_dilution := solute;
             duree_administration := duree |} 1.5 = Success p
    /\ nb_infusion p = 1%Z /\ (dosage_infusion p == 1.5)%Q
    /\ (max_val p == 2)%Q /\ (vol_ref p == 100)%Q
    /\ (volume_dilution p == 75)%Q
    /\ volume_dilution_arrondi p = 80%Z /\ materiel p = pompe.
Proof.
  intros Hna.
  exists {| stability_hours := 24; nb_infusion := 1; dosage_infusion := 1.5 / 1;
            max_val := 2; vol_ref := 100; volume_dilution := 1.5 / 1 * 100 / 2;
            volume_dilution_arrondi := 80;
            materiel := choose_materiel duree 80 |}.
  split; [vm_compute; reflexivity|]. cbn [nb_infusion dosage_infusion max_val
    vol_ref volume_dilution volume_dilution_arrondi materiel].
  repeat split; try reflexivity.
  unfold choose_materiel.
  destruct (String.eqb _ "NA") eqn:E; [apply NA_test in E; contradiction|].
  reflexivity.
Qed.

Lemma C6_witness :
  exists p,
    solve (sample_entry "24h" (Text one_to_two_g_in_100_ml) "30 min") 1.5
    = Success p
    /\ nb_infusion p = 1%Z /\ (dosage_infusion p == 1.5)%Q
    /\ (max_val p == 2)%Q /\ (vol_ref p == 100)%Q
    /\ (volume_dilution p == 75)%Q
    /\ volume_dilution_arrondi p = 80%Z /\ materiel p = pompe.
Proof.
  apply (C6_policy_B_scenario "30 min" (Text "G5%")).
  intros Hna. apply NA_test in Hna. discriminate Hna.
Defined.

(** C4, at inputs where the code departs from it.  A stability whose
    first integer is 0, a stability above 24 h and a maximum of zero are
    all accepted by the parsers, and then a division by zero is raised
    that no [except] clause names: the run ends on an exception, with
    neither a plan nor a reported error, under both policies. *)
Theorem C4_division_by_zero_escapes :
  PolicyA.calculate
    (PolicyA.load_data (sample_row (Text "0h") (Text "4 mg/mL") :: nil))
    "Cefazoline" (sample_variant "0h" "4 mg/mL") 1
  = Uncaught ZeroDivisionError
  /\ PolicyA.calculate
       (PolicyA.load_data (sample_row (Text "48h") (Text "4 mg/mL") :: nil))
       "Cefazoline" (sample_variant "48h" "4 mg/mL") 1
     = Uncaught ZeroDivisionError
  /\ PolicyA.calculate
       (PolicyA.load_data (sample_row (Text "8h") (Text "0 mg/mL") :: nil))
       "Cefazoline" (sample_variant "8h" "0 mg/mL") 1
     = Uncaught ZeroDivisionError
  /\ calculer
       (load_data (sample_ligne (Int 0) (Text "1 g dans 100 ml") (Text "30 min")
                   :: nil))
       "Cefazoline" 1
     = Uncaught ZeroDivisionError
  /\ calculer
       (load_data (sample_ligne (Int 48) (Text "1 g dans 100 ml") (Text "30 min")
                   :: nil))
       "Cefazoline" 1
     = Uncaught ZeroDivisionError
  /\ calculer
       (load_data (sample_ligne (Int 24) (Text "0 g dans 100 ml") (Text "30 min")
                   :: nil))
       "Cefazoline" 1
     = Uncaught ZeroDivisionError.
Proof. repeat split; vm_compute; reflexivity. Qed.

(** The malformed strings themselves are reported, as C4 says. *)
Lemma malformed_strings_are_reported :
  PolicyA.calculate
    (PolicyA.load_data (sample_row (Text "one day") (Text "4 mg/mL") :: nil))
    "Cefazoline" (sample_variant "one day" "4 mg/mL") 1
  = Reported StabilityFormat
  /\ PolicyA.calculate
       (PolicyA.load_data (sample_row (Text "8h") (Text "4 g/L") :: nil))
       "Cefazoline" (sample_variant "8h" "4 g/L") 1
     = Reported StabilityFormat
  /\ calculer
       (load_data (sample_ligne NaN (Text "1 g dans 100 ml") (Text "30 min")
                   :: nil))
       "Cefazoline" 1
     = Reported StabilityFormat
  /\ calculer
       (load_data (sample_ligne (Int 24) (Text "1 g / 100 ml") (Text "30 min")
                   :: nil))
       "Cefazoline" 1
     = Reported DilutionNotRecognised.
Proof. repeat split; vm_compute; reflexivity. Qed.

(** C5, at the input where the code departs from it.  A row of Policy B
    whose dilution cell is missing is not skipped: [str] has made the text
    nan of it before [pd.isna] looks at it.  The row is in the store, and
    a request for its molecule ends on a [TypeError]. *)
Theorem C5_missing_dilution_row_is_loaded :
  skip (sample_ligne (Int 24) NaN (Text "30 min")) = false
  /\ load_data (sample_ligne (Int 24) NaN (Text "30 min") :: nil) !! "Cefazoline"
     = Some (sample_entry "24h" NaN "30 min")
  /\ calculer (load_data (sample_ligne (Int 24) NaN (Text "30 min") :: nil))
       "Cefazoline" 1
     = Uncaught TypeError
  /\ PolicyA.keep (sample_row (Text "24h") NaN) = false
  /\ PolicyA.load_data (sample_row (Text "24h") NaN :: nil) !! "Cefazoline"
     = Some nil.
Proof. repeat split; vm_compute; reflexivity. Qed.

(** * More of the two scripts *)

(** ** Policy A: what a plan always satisfies *)

Import PolicyA.

(** The number of infusions of a plan: at least one, between the minimum
    and its double, a divisor of 24. *)
Lemma nb_infusion_bounds data d p :
  solve data d = Ok p ->
  (1 <= min_infusions p <= nb_infusion p)%Z
  /\ (nb_infusion p <= 2 * min_infusions p)%Z
  /\ (24 / nb_infusion p * nb_infusion p = 24)%Z
  /\ int (hours_between p) = (24 / nb_infusion p)%Z.
Proof.
  intros H. destruct (nb_infusion_divides_24 _ _ _ H) as [Hmod _].
  apply solve_inv in H.
  destruct H as (s & Hs & Hm & Hc & Hnb & Hvol & Hh & Hd & _).
  destruct (reached _ _ _ _ _ Hs Hc) as (Hs0 & Hmn & _).
  assert (Hb : (1 <= min_infusions p <= nb_infusion p
                /\ nb_infusion p <= 2 * min_infusions p)%Z).
  { destruct (choose_cases s (max_val p) d Hs0 Hmn)
      as [[_ E]|[(_ & n & Hn & E)|(_ & _ & E)]]; rewrite E in Hc.
    - injection Hc as <- <- _ _. lia.
    - injection Hc as <- <- _ _. unfold first_match in Hn.
      apply first_from_some in Hn. lia.
    - destruct (Qeq_bool (max_val p) 0); [discriminate|].
      injection Hc as <- <- _ _. lia. }
  repeat split; try lia.
  - rewrite Z.mul_comm. symmetry. apply Z_div_exact_full_2; [lia|exact Hmod].
  - rewrite Hh. apply int_hours. lia.
Qed.

(** X1: The infusions of a plan divide the day evenly: the intervals add up
    to 24 hours, the interval is a whole number of hours, and the number
    of infusions lies between the minimum and its double. *)
Theorem planA_accounts data d p :
  solve data d = Ok p ->
  hours_between p * inject_Z (nb_infusion p) == 24
  /\ hours_between p == inject_Z (int (hours_between p))
  /\ (int (hours_between p) * nb_infusion p = 24)%Z
  /\ (1 <= min_infusions p <= nb_infusion p)%Z
  /\ (nb_infusion p <= 2 * min_infusions p)%Z.
Proof.
  intros H. destruct (nb_infusion_bounds _ _ _ H) as (Hb1 & Hb2 & Hdiv & Hint).
  apply solve_inv in H.
  destruct H as (s & _ & _ & _ & _ & _ & Hh & _).
  assert (Hq : ~ inject_Z (nb_infusion p) == 0) by (rewrite inject_Z_eq0; lia).
  repeat split; try lia.
  - rewrite Hh. rewrite Qmult_comm. now apply Qmult_div_r.
  - rewrite Hint, Hh.
    change 24 with (inject_Z 24). rewrite <- Hdiv at 1.
    rewrite inject_Z_mult. now apply Qdiv_mult_l.
Qed.

Lemma planA_accounts_witness :
  exists p, solve (sample_variant "8h" "10 mg/mL") 3 = Ok p
            /\ nb_infusion p = 6%Z /\ int (hours_between p) = 4%Z
            /\ hours_between p * inject_Z (nb_infusion p) == 24.
Proof.
  eexists. split; [vm_compute; reflexivity|].
  split; [reflexivity|]. split; [reflexivity|].
  apply (planA_accounts (sample_variant "8h" "10 mg/mL") 3).
  vm_compute. reflexivity.
Defined.

(** X3: The frequency sentence agrees with the plan: the hours it shows times
    the number of infusions are 24, and the number of infusions is one of
    the eight divisors of 24. *)
Theorem freq_text_agrees data d p :
  solve data d = Ok p ->
  freq_text p
  = "1 infusion every " +:+ str (Int (24 / nb_infusion p)) +:+ "h, "
    +:+ number_text (nb_infusion p) +:+ " per day"
  /\ (24 / nb_infusion p * nb_infusion p = 24)%Z
  /\ In (nb_infusion p) (1 :: 2 :: 3 :: 4 :: 6 :: 8 :: 12 :: 24 :: nil)%Z.
Proof.
  intros H. destruct (nb_infusion_divides_24 _ _ _ H) as [Hmod _].
  destruct (nb_infusion_bounds _ _ _ H) as (Hb & _ & Hmul & Hint).
  unfold freq_text. rewrite Hint. split; [reflexivity|].
  split; [exact Hmul|].
  destruct (divisors_of_24 (nb_infusion p) ltac:(lia) Hmod)
    as [F|[F|[F|[F|[F|[F|[F|F]]]]]]]; rewrite F; cbn; tauto.
Qed.

Lemma freq_text_agrees_witness :
  exists p, solve (sample_variant "8h" "10 mg/mL") 3 = Ok p
            /\ freq_text p = "1 infusion every 4h, six times per day".
Proof.
  eexists. split; [vm_compute; reflexivity|].
  destruct (freq_text_agrees (sample_variant "8h" "10 mg/mL") 3 _
              ltac:(vm_compute; reflexivity)) as (H & _).
  rewrite H. vm_compute. reflexivity.
Defined.

(** ** Policy A: how the readers fail *)

Lemma float_point ip fp :
  all is_digit ip = true -> ip <> EmptyString -> all is_digit fp = true ->
  exists q, float (ip +:+ String "." fp) = Ok q.
Proof.
  intros Hip Hne Hfp.
  destruct (digits_value_all ip 0 Hip) as [n Hn].
  destruct (digits_value_all fp n Hfp) as [n' Hn'].
  unfold float.
  rewrite (split_append_point ip fp Hip), (split_digits fp Hfp).
  rewrite (digits_value_append ip 0 fp n Hn), Hn'.
  rewrite length_nonempty; [eauto|].
  destruct ip; [contradiction|discriminate].
Qed.

Lemma float_of_first_group r s :
  (forall w gs, sem r w gs -> exists q, float (group gs 1) = Ok q) ->
  forall e, (let* g := index (findall r s) 0 in float g) = Raise e ->
            e = IndexError /\ search r s = None.
Proof.
  intros Hr e. rewrite findall_first.
  destruct (search r s) as [[cs rest]|] eqn:E; cbn [bind].
  - apply search_sound in E. destruct E as (pre & w & _ & Hw).
    destruct (Hr _ _ Hw) as [q Hq]. rewrite Hq. discriminate.
  - intros H. injection H as <-. auto.
Qed.

Lemma pattern_stability_group w gs :
  sem pattern_stability w gs -> exists q, float (group gs 1) = Ok q.
Proof.
  unfold pattern_stability, digits, ws. cbn [cat lit sem]. intros H. break. subst.
  cbn [app group Nat.eqb].
  match goal with
  | Ha : all is_digit ?a = true, Hne : ?a <> EmptyString |- _ =>
      destruct (float_digits a Ha Hne) as (n & _ & Hf)
  end.
  eauto.
Qed.

Lemma pattern_concentration_group w gs :
  sem pattern_concentration w gs -> exists q, float (group gs 1) = Ok q.
Proof.
  unfold pattern_concentration, digits, ws. cbn [cat lit sem]. intros H.
  destruct H as (g & rest & g1 & g2 & _ & -> & (g0 & Hg & ->) & Hrest).
  assert (Hg2 : g2 = nil).
  { break. subst. reflexivity. }
  subst g2. cbn [app group Nat.eqb]. clear Hrest.
  destruct Hg as (ip & tl & ga & gb & -> & -> & ((Hip & Hne) & ->) & Htl).
  destruct Htl as [[-> ->]|(x & fp & gc & gd & -> & -> & ((c & -> & Hc) & ->)
                            & ((Hfp & _) & ->))].
  - rewrite append_nil_r. destruct (float_digits ip Hip Hne) as (n & _ & Hf). eauto.
  - unfold is_char in Hc. apply Ascii.eqb_eq in Hc. subst c.
    rewrite append_cons, append_nil_l. now apply float_point.
Qed.

(** X4: The two readers of Policy A fail in one way only: no text of the
    expected form occurs and [IndexError] is raised.  [float] never
    refuses what the patterns hand it, so the [ValueError] named by the
    [except] clause is never raised. *)
Theorem parsers_raise_only_index_error data e :
  (parse_stability data = Raise e ->
   e = IndexError /\ ~ occurs pattern_stability (str (stability data)))
  /\ (parse_concentration data = Raise e -> e = IndexError).
Proof.
  split.
  - intros H. unfold parse_stability in H.
    apply (float_of_first_group _ _ pattern_stability_group) in H.
    destruct H as [-> Hn]. split; [reflexivity|].
    intros Ho. apply search_occurs in Ho. destruct Ho as [m Hm]. congruence.
  - unfold parse_concentration.
    destruct (contains "-" (str (concentration data))).
    + destruct (index (split "-" (str (concentration data))) 1) as [part|e'] eqn:E;
        cbn [bind].
      * intros H. now apply (float_of_first_group _ _ pattern_concentration_group) in H.
      * intros H. injection H as <-. unfold index in E.
        destruct (nth_error _ 1); [discriminate|]. now injection E as <-.
    + intros H. now apply (float_of_first_group _ _ pattern_concentration_group) in H.
Qed.

Lemma parsers_raise_only_index_error_witness :
  parse_stability (sample_variant "one day" "4 mg/mL") = Raise IndexError
  /\ ~ occurs pattern_stability "one day".
Proof.
  split; [reflexivity|].
  apply (parsers_raise_only_index_error (sample_variant "one day" "4 mg/mL")
           IndexError).
  reflexivity.
Defined.

(** ** Policy A: what the readers read *)

Lemma split_before_hyphen a rest :
  contains "-" a = false ->
  split "-" (a +:+ String "-" rest) = a :: split "-" rest.
Proof.
  induction a as [|c a IH]; intros H.
  - rewrite append_nil_l. reflexivity.
  - cbn [contains] in H. rewrite append_cons. cbn [split].
    destruct (Ascii.eqb "-" c); [discriminate|]. now rewrite (IH H).
Qed.

Lemma split_without_hyphen b : contains "-" b = false -> split "-" b = b :: nil.
Proof.
  induction b as [|c b IH]; intros H; [reflexivity|].
  cbn [contains] in H. cbn [split].
  destruct (Ascii.eqb "-" c); [discriminate|]. now rewrite (IH H).
Qed.

Lemma contains_hyphen a rest : contains "-" (a +:+ String "-" rest) = true.
Proof.
  induction a as [|c a IH]; [reflexivity|].
  rewrite append_cons. cbn [contains]. now destruct (Ascii.eqb "-" c).
Qed.

(** X6: Of a concentration written with a hyphen only the text between the
    first hyphen and the second one (or the end) is read: the figure before
    the first hyphen, the lower bound of a range, plays no part, and
    neither does anything after a second hyphen. *)
Theorem concentration_reads_after_first_hyphen data a b tail :
  concentration data = Text (a +:+ String "-" (b +:+ tail)) ->
  contains "-" a = false -> contains "-" b = false ->
  tail = EmptyString \/ (exists t, tail = String "-" t) ->
  parse_concentration data
  = (let* g := index (findall pattern_concentration b) 0 in float g).
Proof.
  intros Hc Ha Hb Ht. unfold parse_concentration. rewrite Hc. cbn [str].
  rewrite contains_hyphen, (split_before_hyphen a _ Ha).
  destruct Ht as [->|[t ->]].
  - rewrite append_nil_r, (split_without_hyphen b Hb). reflexivity.
  - rewrite (split_before_hyphen b t Hb). reflexivity.
Qed.

Lemma concentration_reads_after_first_hyphen_witness :
  parse_concentration (sample_variant "24h" "2-4 mg/mL") = Ok 4
  /\ parse_concentration (sample_variant "24h" "10 mg/mL at 2-8 C")
     = Raise IndexError.
Proof.
  split.
  - rewrite (concentration_reads_after_first_hyphen
               (sample_variant "24h" "2-4 mg/mL") "2" "4 mg/mL" ""
               eq_refl eq_refl eq_refl (or_introl eq_refl)).
    reflexivity.
  - rewrite (concentration_reads_after_first_hyphen
               (sample_variant "24h" "10 mg/mL at 2-8 C") "10 mg/mL at 2" "8 C" ""
               eq_refl eq_refl eq_refl (or_introl eq_refl)).
    reflexivity.
Defined.

(** X7: The stability that is read is a whole number of hours: the run of
    digits that stands, white space apart, just before an h. *)
Theorem stability_is_whole_hours data s :
  parse_stability data = Ok s ->
  exists pre g sp post n,
    str (stability data) = pre +:+ g +:+ sp +:+ String "h" post
    /\ all is_digit g = true /\ g <> EmptyString /\ all is_space sp = true
    /\ digits_value 0 g = Some n /\ (0 <= n)%Z /\ s = inject_Z n.
Proof.
  unfold parse_stability. rewrite findall_first.
  destruct (search pattern_stability (str (stability data))) as [[cs rest]|] eqn:E;
    [|discriminate].
  cbn [bind]. intros H.
  apply search_sound in E. destruct E as (pre & w & Hstr & Hsem).
  unfold pattern_stability, digits, ws in Hsem. cbn [cat lit sem] in Hsem.
  destruct Hsem as (g & b & g1 & g2 & -> & -> & (g0 & ((Hg & Hne) & ->) & ->) & Hb).
  destruct Hb as (sp & b2 & g3 & g4 & -> & -> & (Hsp & ->) & Hb).
  destruct Hb as (h & b3 & g5 & g6 & -> & -> & Hh & (-> & ->)).
  destruct Hh as (h1 & h2 & g7 & g8 & -> & -> & ((c & -> & Hc) & ->) & (-> & ->)).
  unfold is_char in Hc. apply Ascii.eqb_eq in Hc. subst c.
  cbn [app group Nat.eqb] in H.
  destruct (digits_value_all g 0 Hg) as [n Hn].
  assert (Hf : float g = Ok (inject_Z n)).
  { unfold float. rewrite (split_digits g Hg), append_nil_r, Hn.
    now rewrite (length_nonempty g Hne). }
  rewrite Hf in H. injection H as <-.
  exists pre, g, sp, rest, n. repeat split; auto.
  - rewrite Hstr. rewrite !append_nil_r, !append_assoc. reflexivity.
  - apply (digits_value_nonneg _ _ _ Hn). lia.
Qed.

Lemma stability_is_whole_hours_witness :
  exists pre g sp post n,
    "stable 7.5 h" = pre +:+ g +:+ sp +:+ String "h" post
    /\ all is_digit g = true /\ g <> EmptyString /\ all is_space sp = true
    /\ digits_value 0 g = Some n /\ (0 <= n)%Z /\ 5 = inject_Z n.
Proof.
  apply (stability_is_whole_hours (sample_variant "stable 7.5 h" "4 mg/mL") 5).
  reflexivity.
Defined.

(** ** Policy A: the choice of the variant *)

Lemma cell_eq_true (a b : cell) : cell_eq a b = true -> a = b /\ a <> NaN.
Proof.
  destruct a as [|s|m], b as [|t|n]; cbn [cell_eq]; try discriminate.
  - intros H. apply String.eqb_eq in H. subst t. split; [reflexivity|discriminate].
  - intros H. apply Z.eqb_eq in H. subst n. split; [reflexivity|discriminate].
Qed.

Lemma cell_eq_refl (a : cell) : a <> NaN -> cell_eq a a = true.
Proof.
  destruct a as [|s|m]; cbn [cell_eq]; intros H.
  - contradiction.
  - apply String.eqb_refl.
  - apply Z.eqb_refl.
Qed.

Lemma next_with_solvent_some variants sel w :
  next_with_solvent variants sel = Some w ->
  exists j, nth_error variants j = Some w /\ solvent w = sel /\ sel <> NaN
            /\ forall j' w', (j' < j)%nat -> nth_error variants j' = Some w' ->
                             solvent w' <> sel.
Proof.
  induction variants as [|v vs IH]; cbn [next_with_solvent]; [discriminate|].
  destruct (cell_eq (solvent v) sel) eqn:E.
  - intros [= <-]. apply cell_eq_true in E. destruct E as [E Hn].
    exists 0%nat. repeat split; auto; [congruence|]. intros j' w' Hj. lia.
  - intros H. destruct (IH H) as (j & Hj & Hw & Hs & Hmin).
    exists (S j). repeat split; auto.
    intros [|j'] w' Hlt Hnth.
    + cbn in Hnth. injection Hnth as <-. intros F.
      rewrite F, (cell_eq_refl sel Hs) in E. discriminate.
    + apply (Hmin j' w'); [lia|exact Hnth].
Qed.

Lemma next_with_solvent_none variants sel :
  next_with_solvent variants sel = None ->
  forall w, In w variants -> cell_eq (solvent w) sel = false.
Proof.
  induction variants as [|v vs IH]; cbn [next_with_solvent]; intros H w Hw.
  - destruct Hw.
  - destruct (cell_eq (solvent v) sel) eqn:E; [discriminate|].
    destruct Hw as [<-|Hw]; [exact E|now apply IH].
Qed.

(** X9: Which variant the run works on.  With no variant, [variants[0]] raises
    [IndexError]; with one, it is taken whatever was selected; with
    several, the first variant of the list whose solvent equals the
    selected one is taken, so a variant that repeats the solvent of an
    earlier one is never reached, and when none equals it [next] raises
    [StopIteration]. *)
Theorem select_data_takes_first_with_solvent variants sel :
  match select_data variants sel with
  | NoVariant => variants = nil
  | Picked w =>
      variants = w :: nil
      \/ ((2 <= length variants)%nat
          /\ exists j, nth_error variants j = Some w /\ solvent w = sel
                       /\ sel <> NaN
                       /\ forall j' w', (j' < j)%nat ->
                            nth_error variants j' = Some w' ->
                            solvent w' <> sel)
  | NoMatch =>
      (2 <= length variants)%nat
      /\ forall w, In w variants -> cell_eq (solvent w) sel = false
  end.
Proof.
  unfold select_data. destruct (1 <? length variants)%nat eqn:L.
  - apply Nat.ltb_lt in L.
    destruct (next_with_solvent variants sel) as [w|] eqn:E.
    + right. split; [lia|]. now apply next_with_solvent_some.
    + split; [lia|]. now apply next_with_solvent_none.
  - apply Nat.ltb_ge in L. destruct variants as [|v [|v' vs]]; cbn in L.
    + reflexivity.
    + now left.
    + lia.
Qed.

(** X10: When the solvents of the variants are all given and all different,
    selecting the solvent of a variant gives that variant back. *)
Theorem select_data_round_trip variants i v :
  List.NoDup (solvent_options variants) ->
  ~ In NaN (solvent_options variants) ->
  nth_error variants i = Some v ->
  select_data variants (solvent v) = Picked v.
Proof.
  intros Hnd Hnan Hi.
  assert (Hnext : next_with_solvent variants (solvent v) = Some v).
  { revert i Hnd Hnan Hi. induction variants as [|v0 vs IH]; intros i Hnd Hnan Hi.
    - destruct i; discriminate.
    - cbn [solvent_options map] in Hnd, Hnan. cbn [next_with_solvent].
      apply List.NoDup_cons_iff in Hnd. destruct Hnd as [Hnotin Hnd].
      destruct i as [|i]; cbn in Hi.
      + injection Hi as ->. rewrite cell_eq_refl; [reflexivity|].
        intros F. apply Hnan. left. exact F.
      + destruct (cell_eq (solvent v0) (solvent v)) eqn:E.
        * exfalso. apply cell_eq_true in E. destruct E as [E _].
          apply Hnotin. rewrite E. apply in_map. eapply nth_error_In; eauto.
        * apply (IH i); auto. intros F. apply Hnan. now right. }
  unfold select_data. rewrite Hnext.
  destruct (1 <? length variants)%nat eqn:L; [reflexivity|].
  apply Nat.ltb_ge in L. destruct variants as [|v0 [|v1 vs]]; cbn in L; try lia.
  - destruct i; discriminate.
  - cbn in Hnext. destruct (cell_eq (solvent v0) (solvent v)); congruence.
Qed.

Lemma select_data_round_trip_witness :
  select_data
    (sample_variant "8h" "10 mg/mL"
     :: {| solvent := Text "G5%"; concentration := Text "5 mg/mL";
           stability := Text "24h"; comment := NaN; reference := NaN |} :: nil)
    (Text "G5%")
  = Picked {| solvent := Text "G5%"; concentration := Text "5 mg/mL";
              stability := Text "24h"; comment := NaN; reference := NaN |}.
Proof.
  apply (select_data_round_trip _ 1%nat
           {| solvent := Text "G5%"; concentration := Text "5 mg/mL";
              stability := Text "24h"; comment := NaN; reference := NaN |}).
  - repeat constructor; cbn; intuition discriminate.
  - cbn. intuition discriminate.
  - reflexivity.
Defined.

(** X11: A molecule whose rows all lack a concentration is still a key of the
    store, with no variant at all, and the choice of the variant then ends
    on [IndexError]. *)
Theorem molecule_without_concentration_has_no_variant df r :
  In r df ->
  (forall r', In r' df -> Molecule r' = Molecule r -> keep r' = false) ->
  exists variants,
    load_data df !! Molecule r = Some variants
    /\ forall sel, select_data variants sel = NoVariant.
Proof.
  intros Hr Hall. exists nil. split; [|reflexivity].
  rewrite loadA_lookup.
  assert (E : existsb (fun r' => String.eqb (Molecule r') (Molecule r)) df = true).
  { apply existsb_exists. exists r. split; [exact Hr|apply String.eqb_refl]. }
  rewrite E. f_equal.
  destruct (List.filter keep (group_rows (Molecule r) df)) as [|x l] eqn:F;
    [reflexivity|].
  assert (Hx : In x (List.filter keep (group_rows (Molecule r) df)))
    by (rewrite F; now left).
  apply filter_In in Hx. destruct Hx as [Hx Hk]. unfold group_rows in Hx.
  apply filter_In in Hx. destruct Hx as [Hx Hm]. apply String.eqb_eq in Hm.
  rewrite (Hall x Hx Hm) in Hk. discriminate.
Qed.

Lemma molecule_without_concentration_has_no_variant_witness :
  exists variants,
    load_data (sample_row (Text "24h") NaN :: sample_row (Text "8h") (Text "  ") :: nil)
      !! "Cefazoline" = Some variants
    /\ forall sel, select_data variants sel = NoVariant.
Proof.
  apply (molecule_without_concentration_has_no_variant
           (sample_row (Text "24h") NaN :: sample_row (Text "8h") (Text "  ") :: nil)
           (sample_row (Text "24h") NaN)).
  - now left.
  - intros r' [<-|[<-|[]]] _; reflexivity.
Defined.

(** ** Policy A: what the store holds *)

Lemma filter_filter {A} (f g : A -> bool) (l : list A) :
  List.filter g (List.filter f l) = List.filter (fun x => f x && g x) l.
Proof.
  induction l as [|x l IH]; [reflexivity|]. cbn [List.filter].
  destruct (f x); cbn [List.filter andb]; [destruct (g x)|]; now rewrite IH.
Qed.

(** X12: The store of Policy A, molecule by molecule.  Every molecule named in
    the file is a key, also one none of whose rows is kept, and no other
    name is; the variants of a molecule are its rows with a concentration
    that is neither missing nor blank, in the order of the file and with
    their repetitions, and the second selection box offers their solvents
    in that order. *)
Theorem loadA_variants_in_file_order df molecule :
  (load_data df !! molecule = None
   <-> forall r, In r df -> Molecule r <> molecule)
  /\ (forall variants,
        load_data df !! molecule = Some variants ->
        variants
        = map variant_of_row
            (List.filter
               (fun r => String.eqb (Molecule r) molecule && keep r) df)
        /\ solvent_options variants
           = map Solvent
               (List.filter
                  (fun r => String.eqb (Molecule r) molecule && keep r) df)).
Proof.
  rewrite loadA_lookup.
  destruct (existsb (fun r => String.eqb (Molecule r) molecule) df) eqn:E.
  - apply existsb_exists in E. destruct E as (r & Hr & Hm).
    apply String.eqb_eq in Hm. split.
    + split; [discriminate|]. intros H. exfalso. exact (H r Hr Hm).
    + intros variants [= <-]. unfold group_rows. rewrite filter_filter.
      split; [reflexivity|]. unfold solvent_options. rewrite map_map. reflexivity.
  - split; [|discriminate]. split; [|reflexivity]. intros _ r Hr Hm.
    assert (F : existsb (fun r => String.eqb (Molecule r) molecule) df = true).
    { apply existsb_exists. exists r. split; [exact Hr|]. now apply String.eqb_eq. }
    congruence.
Qed.

(** ** Policy B: the store *)

Import PolicyB.

Lemma find_app {A} (f : A -> bool) (l1 l2 : list A) :
  List.find f (l1 ++ l2)%list
  = match List.find f l1 with
    | Some x => Some x
    | None => List.find f l2
    end.
Proof.
  induction l1 as [|x l1 IH]; [reflexivity|].
  cbn [app List.find]. now destruct (f x).
Qed.

Lemma loadB_fold (df : list row) : forall (m0 : gmap string entry) (k : string),
  fold_left
    (fun antibiotiques r =>
       if skip r then antibiotiques
       else <[Molecule r := entry_of_row r]> antibiotiques)
    df m0 !! k
  = match last_loaded k df with
    | Some r => Some (entry_of_row r)
    | None => m0 !! k
    end.
Proof.
  unfold last_loaded.
  induction df as [|r df IH]; intros m0 k; [reflexivity|].
  cbn [fold_left rev]. rewrite IH, find_app.
  destruct (List.find _ (rev df)); [reflexivity|].
  cbn [List.find]. destruct (skip r) eqn:Es.
  - now rewrite andb_false_r.
  - rewrite andb_true_r. destruct (String.eqb (Molecule r) k) eqn:E.
    + apply String.eqb_eq in E. subst k. apply lookup_insert_eq.
    + apply String.eqb_neq in E. now rewrite lookup_insert_ne.
Qed.

Lemma find_rev_last {A} (f : A -> bool) (l : list A) :
  match List.find f (rev l) with
  | Some r =>
      exists before after,
        l = (before ++ r :: after)%list /\ f r = true
        /\ forall x, In x after -> f x = false
  | None => forall x, In x l -> f x = false
  end.
Proof.
  induction l as [|x l IH]; [intros x []|].
  cbn [rev]. rewrite find_app.
  destruct (List.find f (rev l)) as [r|].
  - destruct IH as (before & after & -> & Hr & Hafter).
    exists (x :: before), after. auto.
  - cbn [List.find]. destruct (f x) eqn:E.
    + exists nil, l. auto.
    + intros y [<-|Hy]; auto.
Qed.

(** X13: What the store of Policy B holds for a molecule: the last row of the
    file with that name that is not skipped, so that an earlier row of the
    same molecule is overwritten; and the molecule is absent exactly when
    all its rows are skipped. *)
Theorem loadB_last_row_wins (df : list row) (k : string) :
  match load_data df !! k with
  | Some data =>
      exists before r after,
        df = (before ++ r :: after)%list
        /\ Molecule r = k /\ skip r = false /\ data = entry_of_row r
        /\ forall r', In r' after -> Molecule r' = k -> skip r' = true
  | None => forall r, In r df -> Molecule r = k -> skip r = true
  end.
Proof.
  unfold load_data. rewrite loadB_fold. unfold last_loaded.
  assert (H := find_rev_last
                 (fun r => String.eqb (Molecule r) k && negb (skip r)) df).
  destruct (List.find _ (rev df)) as [r|].
  - destruct H as (before & after & Hdf & Hr & Hafter).
    apply andb_prop in Hr. destruct Hr as [Hm Hs].
    apply String.eqb_eq in Hm. apply negb_true_iff in Hs.
    exists before, r, after. repeat split; auto.
    intros r' Hr' Hm'. specialize (Hafter r' Hr').
    apply String.eqb_eq in Hm'. rewrite Hm' in Hafter. cbn in Hafter.
    now apply negb_false_iff in Hafter.
  - rewrite lookup_empty. intros r Hr Hm. specialize (H r Hr).
    apply String.eqb_eq in Hm. rewrite Hm in H. cbn in H.
    now apply negb_false_iff in H.
Qed.

(** ** Policy B: what a plan holds *)

Lemma pattern_stabilite_group w gs :
  sem pattern_stabilite w gs ->
  exists n, (0 <= n)%Z /\ float (group gs 1) = Ok (inject_Z n).
Proof.
  unfold pattern_stabilite, digits. cbn [sem].
  intros (g1 & ((Hw & Hne) & ->) & ->). cbn [group Nat.eqb].
  now apply float_digits.
Qed.

(** The stability of Policy B is a natural number, or there is no digit
    in the text and [IndexError] is raised. *)
Lemma stabilite_hours_cases data :
  (exists n, (0 <= n)%Z /\ stabilite_hours data = Ok (inject_Z n))
  \/ stabilite_hours data = Raise IndexError.
Proof.
  unfold stabilite_hours. rewrite findall_first.
  destruct (search pattern_stabilite (stabilite data)) as [[cs rest]|] eqn:E;
    cbn [bind]; [left|now right].
  apply search_sound in E. destruct E as (pre & w & _ & Hw).
  destruct (pattern_stabilite_group _ _ Hw) as (n & Hn & Hf). eauto.
Qed.

(** The dilution string gives two numbers, neither of them negative, or
    the message that its format is not recognised. *)
Lemma parse_dilution_cases t :
  (exists mv vr, parse_dilution t = Success (mv, vr) /\ 0 <= mv /\ 0 <= vr)
  \/ parse_dilution t = Reported DilutionNotRecognised.
Proof.
  unfold parse_dilution.
  destruct (search pattern1 t) as [[m1 r1]|] eqn:E1.
  - left. apply search_sound in E1. destruct E1 as (pre & w & _ & Hw).
    destruct (sem_pattern1_inv _ _ Hw) as (A & B & C & -> & _ & HB & HC).
    destruct (float_number _ _ HB) as (vB & HfB & _).
    destruct (float_number _ _ HC) as (vC & HfC & _).
    cbn [group Nat.eqb]. rewrite HfB, HfC. cbn [bind catch].
    exists vB, vC. split; [reflexivity|]. split; eapply float_nonneg; eauto.
  - destruct (search pattern2 t) as [[m2 r2]|] eqn:E2; [left|now right].
    apply search_sound in E2. destruct E2 as (pre & w & _ & Hw).
    destruct (sem_pattern2_inv _ _ Hw) as (A & C & -> & HA & HC).
    destruct (float_number _ _ HA) as (vA & HfA & _).
    destruct (float_number _ _ HC) as (vC & HfC & _).
    cbn [group Nat.eqb]. rewrite HfA, HfC. cbn [bind catch].
    exists vA, vC. split; [reflexivity|]. split; eapply float_nonneg; eauto.
Qed.

Lemma solveB_unfold data d :
  solve data d
  = (let+ stability_hours := catch (stabilite_hours data) handler_stabilite in
     let+ q := bare (div 24 stability_hours) in
     let nb_infusion := int q in
     let+ dosage_infusion := bare (div d (inject_Z nb_infusion)) in
     let+ dilution_str := bare (as_str (dilution_pratique data)) in
     let+ vals := parse_dilution dilution_str in
     let+ volume_dilution :=
       catch (div (dosage_infusion * snd vals) (fst vals)) handler_dilution in
     Success {| stability_hours := stability_hours; nb_infusion := nb_infusion;
                dosage_infusion := dosage_infusion; max_val := fst vals;
                vol_ref := snd vals; volume_dilution := volume_dilution;
                volume_dilution_arrondi := (round (volume_dilution / 10) * 10)%Z;
                materiel :=
                  choose_materiel (duree_administration data)
                    (round (volume_dilution / 10) * 10)%Z |}).
Proof. reflexivity. Qed.

(** What a plan of Policy B holds. *)
Lemma solveB_plan data d p :
  solve data d = Success p ->
  exists k t,
    stability_hours p = inject_Z k /\ (1 <= k <= 24)%Z
    /\ nb_infusion p = (24 / k)%Z /\ (1 <= nb_infusion p)%Z
    /\ dosage_infusion p = d / inject_Z (nb_infusion p)
    /\ dilution_pratique data = Text t
    /\ parse_dilution t = Success (max_val p, vol_ref p)
    /\ 0 < max_val p /\ 0 <= vol_ref p
    /\ volume_dilution p = dosage_infusion p * vol_ref p / max_val p
    /\ volume_dilution_arrondi p = (round (volume_dilution p / 10) * 10)%Z
    /\ materiel p
       = choose_materiel (duree_administration data) (volume_dilution_arrondi p).
Proof.
  rewrite solveB_unfold.
  destruct (stabilite_hours_cases data) as [(k & Hk & Hs)|Hs]; rewrite Hs;
    [|discriminate].
  cbn [catch obind]. unfold bare.
  destruct (div 24 (inject_Z k)) as [q|e] eqn:E1; cbn [catch obind]; [|discriminate].
  apply div_ok in E1. destruct E1 as [Hk0 ->]. rewrite inject_Z_eq0 in Hk0.
  rewrite int_hours by lia.
  destruct (div d (inject_Z (24 / k))) as [dg|e] eqn:E2; cbn [catch obind];
    [|discriminate].
  apply div_ok in E2. destruct E2 as [Hnb ->]. rewrite inject_Z_eq0 in Hnb.
  assert (H0 : (0 <= 24 / k)%Z) by (apply Z.div_pos; lia).
  assert (Hk24 : (k <= 24)%Z).
  { destruct (Z_le_gt_dec k 24); [assumption|]. rewrite Z.div_small in Hnb; lia. }
  destruct (dilution_pratique data) as [|t|n]; cbn [as_str catch obind];
    try discriminate.
  destruct (parse_dilution_cases t) as [(mv & vr & Hp & Hmv & Hvr)|Hp]; rewrite Hp;
    [|discriminate].
  cbn [obind fst snd].
  destruct (div (d / inject_Z (24 / k) * vr) mv) as [v|e] eqn:E3; cbn [catch obind].
  - apply div_ok in E3. destruct E3 as [Hz ->].
    intros [= <-]. cbn. exists k, t. repeat split; auto; try lia.
    apply Qle_lteq in Hmv. destruct Hmv as [Hlt|Heq]; [exact Hlt|].
    symmetry in Heq. contradiction.
  - destruct (handler_dilution e); discriminate.
Qed.

Lemma int_inject_Z (k : Z) : int (inject_Z k) = k.
Proof. unfold int. cbn. apply Z.quot_1_r. Qed.

(** X16: The infusions of Policy B fit in a day, and may leave a part of it
    uncovered: the stability that is read is a whole number of hours from
    1 to 24, the number of infusions is the quotient of 24 by it, rounded
    down, so that the infusions, one stability apart, span 24 hours only
    when the stability divides 24; and the frequency line names the
    stability as the interval. *)
Theorem planB_infusions_within_a_day data d p :
  solve data d = Success p ->
  exists k,
    stability_hours p = inject_Z k /\ (1 <= k <= 24)%Z
    /\ nb_infusion p = (24 / k)%Z /\ (1 <= nb_infusion p <= 24)%Z
    /\ (k * nb_infusion p <= 24 < k * (nb_infusion p + 1))%Z
    /\ ((k * nb_infusion p = 24)%Z <-> (24 mod k = 0)%Z)
    /\ freq_text_B p
       = "1 perfusion toutes les " +:+ str (Int k) +:+ "h, "
         +:+ nombre_text (24 / k) +:+ " par jour".
Proof.
  intros H. apply solveB_plan in H.
  destruct H as (k & t & Hs & Hk & Hnb & Hnb1 & Hd & _).
  exists k. split; [exact Hs|]. split; [exact Hk|]. split; [exact Hnb|].
  assert (Hdm := Z.div_mod 24 k ltac:(lia)).
  assert (Hmod := Z.mod_pos_bound 24 k ltac:(lia)).
  rewrite Hnb in *.
  assert (Hle : (24 / k <= 24)%Z).
  { apply Z.div_le_upper_bound; lia. }
  repeat split; try lia.
  - unfold freq_text_B. now rewrite Hs, int_inject_Z, Hnb.
Qed.

Lemma planB_infusions_within_a_day_witness :
  exists p k,
    solve (sample_entry "5h" (Text "2 g dans 100 ml") "30 min") 4 = Success p
    /\ stability_hours p = inject_Z k /\ k = 5%Z /\ nb_infusion p = 4%Z
    /\ (k * nb_infusion p = 20)%Z.
Proof.
  destruct (planB_infusions_within_a_day
              (sample_entry "5h" (Text "2 g dans 100 ml") "30 min") 4
              {| stability_hours := 5; nb_infusion := 4; dosage_infusion := 4 / 4;
                 max_val := 2; vol_ref := 100;
                 volume_dilution := 4 / 4 * 100 / 2;
                 volume_dilution_arrondi := 50; materiel := PSE |}
              ltac:(vm_compute; reflexivity))
    as (k & Hs & Hk & Hnb & _).
  eexists. exists k. split; [vm_compute; reflexivity|].
  split; [exact Hs|].
  assert (Ek : k = 5%Z).
  { cbn [stability_hours] in Hs. change 5 with (inject_Z 5) in Hs.
    now injection Hs. }
  subst k. repeat split.
Defined.

(** ** Policy B: which digits are the stability *)

Lemma star_greedy p (k : string -> option found) g post m :
  all p g = true ->
  (post = EmptyString \/ exists c r, post = String c r /\ p c = false) ->
  k post = Some m ->
  star p k (g +:+ post) = Some m.
Proof.
  intros Hg Hpost Hk. induction g as [|c g IH].
  - rewrite append_nil_l. destruct Hpost as [->|(c & r & -> & Hc)]; cbn [star].
    + exact Hk.
    + now rewrite Hc.
  - cbn [all] in Hg. apply andb_prop in Hg. destruct Hg as [Hc Hg].
    rewrite append_cons. cbn [star]. now rewrite Hc, (IH Hg).
Qed.

Lemma search_first_run pre g post :
  all (fun c => negb (is_digit c)) pre = true ->
  all is_digit g = true -> g <> EmptyString ->
  (post = EmptyString \/ exists c r, post = String c r /\ is_digit c = false) ->
  search pattern_stabilite (pre +:+ g +:+ post) = Some ((1%nat, g) :: nil, post).
Proof.
  intros Hpre Hg Hne Hpost. induction pre as [|x pre IH].
  - rewrite append_nil_l. destruct g as [|c g]; [contradiction|].
    cbn [all] in Hg. apply andb_prop in Hg. destruct Hg as [Hc Hg].
    rewrite append_cons. cbn [search]. unfold match_at, pattern_stabilite, digits.
    cbn [exec]. rewrite Hc.
    rewrite (star_greedy is_digit _ g post
               ((1%nat, consumed (String c (g +:+ post)) post) :: nil, post) Hg Hpost
               eq_refl).
    rewrite <- append_cons, consumed_append. reflexivity.
  - cbn [all] in Hpre. apply andb_prop in Hpre. destruct Hpre as [Hx Hpre].
    apply negb_true_iff in Hx.
    rewrite append_cons. cbn [search]. unfold match_at at 1, pattern_stabilite, digits.
    cbn [exec]. rewrite Hx. exact (IH Hpre).
Qed.

Lemma search_no_digit s :
  all (fun c => negb (is_digit c)) s = true -> search pattern_stabilite s = None.
Proof.
  induction s as [|c s IH]; intros H; [reflexivity|].
  cbn [all] in H. apply andb_prop in H. destruct H as [Hc H].
  apply negb_true_iff in Hc. cbn [search].
  unfold match_at at 1, pattern_stabilite, digits. cbn [exec]. rewrite Hc.
  exact (IH H).
Qed.

Lemma solveB_plan_stability data d p :
  solve data d = Success p -> stabilite_hours data = Ok (stability_hours p).
Proof.
  rewrite solveB_unfold.
  destruct (stabilite_hours data) as [s|e]; cbn [catch obind].
  - unfold bare.
    destruct (div 24 s) as [q|e]; cbn [catch obind]; [|discriminate].
    destruct (div d (inject_Z (int q))) as [dg|e]; cbn [catch obind]; [|discriminate].
    destruct (as_str (dilution_pratique data)) as [t|e]; cbn [catch obind];
      [|discriminate].
    destruct (parse_dilution t) as [vals| |]; cbn [obind]; try discriminate.
    destruct (catch _ handler_dilution) as [v| |]; cbn [obind]; try discriminate.
    now intros [= <-].
  - destruct (handler_stabilite e); discriminate.
Qed.

(** X19: The stability of Policy B is the first run of digits of the text,
    taken whole, whatever stands before and after it: a point, a comma or
    a unit ends the run.  A text with no digit gives the message on the
    stability. *)
Theorem stabilite_is_first_run_of_digits data d :
  (all (fun c => negb (is_digit c)) (stabilite data) = true ->
   solve data d = Reported StabilityFormat)
  /\ (forall pre g post,
        stabilite data = pre +:+ g +:+ post ->
        all (fun c => negb (is_digit c)) pre = true ->
        all is_digit g = true -> g <> EmptyString ->
        (post = EmptyString \/ exists c r, post = String c r /\ is_digit c = false) ->
        exists n, digits_value 0 g = Some n
                  /\ stabilite_hours data = Ok (inject_Z n)
                  /\ forall p, solve data d = Success p ->
                               stability_hours p = inject_Z n).
Proof.
  split.
  - intros Hno. apply search_no_digit in Hno.
    rewrite solveB_unfold. unfold stabilite_hours.
    rewrite findall_first, Hno. reflexivity.
  - intros pre g post Hs Hpre Hg Hne Hpost.
    destruct (digits_value_all g 0 Hg) as [n Hn]. exists n. split; [exact Hn|].
    assert (Hh : stabilite_hours data = Ok (inject_Z n)).
    { unfold stabilite_hours.
      rewrite findall_first, Hs, (search_first_run pre g post Hpre Hg Hne Hpost).
      cbn [bind group Nat.eqb]. unfold float.
      rewrite (split_digits g Hg), append_nil_r, Hn.
      now rewrite (length_nonempty g Hne). }
    split; [exact Hh|]. intros p Hp.
    apply solveB_plan_stability in Hp. rewrite Hh in Hp. now injection Hp.
Qed.

Lemma stabilite_is_first_run_of_digits_witness :
  solve (sample_entry "nanh" (Text "2 g dans 100 ml") "30 min") 4
  = Reported StabilityFormat
  /\ exists n, digits_value 0 "7" = Some n
               /\ stabilite_hours (sample_entry "7.5h" (Text "2 g dans 100 ml") "30 min")
                  = Ok (inject_Z n)
               /\ n = 7%Z.
Proof.
  split.
  - apply (stabilite_is_first_run_of_digits
             (sample_entry "nanh" (Text "2 g dans 100 ml") "30 min") 4).
    reflexivity.
  - destruct (proj2 (stabilite_is_first_run_of_digits
                       (sample_entry "7.5h" (Text "2 g dans 100 ml") "30 min") 4)
                "" "7" ".5h" eq_refl eq_refl eq_refl ltac:(discriminate)
                ltac:(right; exists "."%char, "5h"; split; reflexivity))
      as (n & Hn & Hh & _).
    exists n. split; [exact Hn|]. split; [exact Hh|].
    cbn in Hn. now injection Hn.
Defined.

(** ** Policy A on binary64: the exceptions that escape *)

Section Binary64A.

Import PyStr PyNum PyFloat Re PolicyA64.
Local Open Scope Z_scope.
















End Binary64A.

(** ** Policy B on binary64: the message on the format of the dilution *)

Section Binary64B.

Import PyStr PyNum PyFloat Re PolicyB64.
Local Open Scope Z_scope.







End Binary64B.
